(** * Data manager query construction (label_studio/data_manager/managers.py)

    A shallow embedding of the query builder of the data manager:
    [preprocess_field_name], [get_fields_for_annotation], [apply_ordering],
    [cast_value], [apply_filters], [TaskQuerySet.prepared] and
    [PreparedTaskManager.get_queryset] / [all].

    Python objects that the code mutates in place (filter items) are threaded
    explicitly: every function that may write to a filter item returns the
    item as it is left behind, also when it leaves with an exception. *)

From Stdlib Require Import Bool List String Ascii ZArith Lia Permutation Sorted.
Import ListNotations.
Open Scope string_scope.
Open Scope Z_scope.
Set Warnings "-register-all".

(** ** Python strings *)

Module PyStr.

(** [s.startswith(p)] *)
Definition startswith (s p : string) : bool := String.prefix p s.

(** [s[n:]] *)
Fixpoint drop (n : nat) (s : string) : string :=
  match n, s with
  | O, _ => s
  | S _, EmptyString => EmptyString
  | S k, String _ s' => drop k s'
  end.

(** [s.replace(old, new)]: every non-overlapping occurrence, scanning from
    the left.  [skip] counts the characters of a matched occurrence that
    are still to be dropped.  Every call in managers.py passes a non-empty
    literal for [old]. *)
Fixpoint replace_from (old new : string) (skip : nat) (s : string) : string :=
  match s with
  | EmptyString => EmptyString
  | String c s' =>
      match skip with
      | S k => replace_from old new k s'
      | O =>
          if String.prefix old s
          then new ++ replace_from old new (Nat.pred (String.length old)) s'
          else String c (replace_from old new O s')
      end
  end.

Definition replace (s old new : string) : string := replace_from old new O s.

(** [s.replace(old, new, 1)]: the first occurrence only. *)
Fixpoint replace_first (s old new : string) : string :=
  match s with
  | EmptyString => EmptyString
  | String c s' =>
      if String.prefix old s
      then new ++ drop (String.length old) s
      else String c (replace_first s' old new)
  end.

(** [sub in s] *)
Fixpoint contains (s sub : string) : bool :=
  String.prefix sub s ||
  match s with
  | EmptyString => false
  | String _ s' => contains s' sub
  end.

(** [s.lower()] on the ASCII range. *)
Definition lower_ascii (c : ascii) : ascii :=
  let n := nat_of_ascii c in
  if (Nat.leb 65 n && Nat.leb n 90)%bool then ascii_of_nat (n + 32) else c.

Fixpoint lower (s : string) : string :=
  match s with
  | EmptyString => EmptyString
  | String c s' => String (lower_ascii c) (lower s')
  end.

Definition is_empty (s : string) : bool :=
  match s with EmptyString => true | _ => false end.

(** [s.endswith(suf)] *)
Definition endswith (s suf : string) : bool :=
  let n := String.length s in
  let m := String.length suf in
  (Nat.leb m n && String.eqb (drop (n - m) s) suf)%bool.

(** [s[:len(s) - n]] *)
Definition drop_end (n : nat) (s : string) : string :=
  String.substring 0 (String.length s - n) s.

Definition mem (s : string) (l : list string) : bool :=
  existsb (String.eqb s) l.

End PyStr.

(** ** Python values and the library calls of managers.py *)

(** Carriers of the two Python types whose values the embedding never looks
    into: [float] and [datetime.datetime]. *)
Class PyTypes := {
  float : Type;
  datetime : Type
}.

(** A filter value: a JSON scalar as the client sent it, a range object with
    the attributes [min] and [max], or what [cast_value] turned it into. *)
Inductive Value `{PyTypes} : Type :=
| VNone
| VBool (b : bool)
| VInt (z : Z)
| VFloat (x : float)
| VStr (s : string)
| VDatetime (d : datetime)
| VRange (min max : Value).

Inductive Exception : Type :=
| ValueError
| TypeError
| AttributeError
| IndexError
| KeyError (key : string).

(** The calls into the Python standard library: [float()], truth and
    equality of floats, [datetime.strptime], [re.compile], [re.sub] and
    [str()] of a value that is not a string. *)
Class PyLib `{PyTypes} := {
  float_of_str : string -> option float;
  float_of_int : Z -> float;
  float_nonzero : float -> bool;
  float_eqb : float -> float -> bool;
  strptime : string -> string -> option datetime;
  datetime_eqb : datetime -> datetime -> bool;
  (** the class attributes [datetime.min] and [datetime.max] *)
  datetime_min : datetime;
  datetime_max : datetime;
  (** [None] when the pattern compiles, else the text of the [re.error]. *)
  re_compile : string -> option string;
  (** [re.sub(pattern, repl, s)] *)
  re_sub : string -> string -> string -> string;
  py_repr : Value -> string
}.

(** The storage engine behind the ORM, [django.conf.settings] and the
    declaration of the [Task] model, none of which is part of managers.py. *)
Class Backend `{PyTypes} := {
  (** a comparison lookup ([lt], [gte], [icontains], [regex], ...) of a column
      value against the right-hand side *)
  db_lookup : string -> Value -> Value -> bool;
  (** the order [ORDER BY] puts two values that are not null in *)
  db_leb : Value -> Value -> bool;
  (** [data ->> key]: a JSON value as text, null for JSON null *)
  json_text : Value -> option Value;
  (** [CAST(text AS double precision)] *)
  sql_cast_float : Value -> option Value;
  (** the value of an aggregate or subquery expression on a row *)
  db_expr : string -> Z -> option Value;
  (** [settings.DJANGO_DB == settings.DJANGO_DB_SQLITE] *)
  DJANGO_DB_is_sqlite : bool;
  DATA_UNDEFINED_NAME : string;
  (** [[field.attname for field in Task._meta.fields]] *)
  task_attnames : list string;
  (** those of them declared with [null=True] *)
  task_null_attnames : list string
}.

Section Model.
Context `{T : PyTypes} `{L : @PyLib T} `{B : @Backend T}.

(** Python truth of a value, as [not _filter.value] tests it: a range object
    and a datetime are always true. *)
Definition truthy (v : Value) : bool :=
  match v with
  | VNone => false
  | VBool b => b
  | VInt z => negb (z =? 0)
  | VFloat x => float_nonzero x
  | VStr s => negb (PyStr.is_empty s)
  | VDatetime _ => true
  | VRange _ _ => true
  end.

(** [str(v)] *)
Definition py_str (v : Value) : string :=
  match v with
  | VStr s => s
  | _ => py_repr v
  end.

(** [float(v)] *)
Definition py_float (v : Value) : Exception + Value :=
  match v with
  | VStr s =>
      match float_of_str s with
      | Some x => inr (VFloat x)
      | None => inl ValueError
      end
  | VInt z => inr (VFloat (float_of_int z))
  | VBool b => inr (VFloat (float_of_int (if b then 1 else 0)))
  | VFloat x => inr (VFloat x)
  | VNone | VDatetime _ | VRange _ _ => inl TypeError
  end.

(** [datetime.strptime(v, fmt)] *)
Definition py_strptime (v : Value) (fmt : string) : Exception + Value :=
  match v with
  | VStr s =>
      match strptime s fmt with
      | Some d => inr (VDatetime d)
      | None => inl ValueError
      end
  | _ => inl TypeError
  end.

(** Modelled from the spec: [cast_bool_from_str] is imported from
    label_studio.core.utils.params, which is not part of the sources at hand.
    The rule is the spec's: a string is true when, lower-cased, it is one of
    "1", "true", "yes", and false otherwise.  The rule is one on strings; a
    value that is not a string is handed back as it is. *)
Definition cast_bool_from_str (v : Value) : Value :=
  match v with
  | VStr s => VBool (PyStr.mem (PyStr.lower s) ["1"; "true"; "yes"])
  | _ => v
  end.

(** ** Records of the store *)

Record Project := {
  project_id : Z;
  only_undefined_field : bool
}.

Record Annotation := {
  annotation_id : Z;
  was_cancelled : bool
}.

Record Prediction := {
  prediction_id : Z
}.

(** A task row: its key, its project, the JSON object of [data], the other
    columns (native ones and those added by [annotate]) and the rows related
    to it.  A column that is missing from [columns] is SQL NULL; a key that
    is missing from [data] is unset; [VNone] is JSON null. *)
Record Task := {
  id : Z;
  project : Project;
  data : list (string * Value);
  columns : list (string * Value);
  annotations : list Annotation;
  predictions : list Prediction
}.

Fixpoint assoc (k : string) (l : list (string * Value)) : option Value :=
  match l with
  | [] => None
  | (k', v) :: l' => if String.eqb k k' then Some v else assoc k l'
  end.

(** The value a lookup path denotes on a row. *)
Definition get_field (t : Task) (name : string) : option Value :=
  if String.eqb name "id" then Some (VInt (id t))
  else if PyStr.startswith name "data__" then assoc (PyStr.drop 6 name) (data t)
  else assoc name (columns t).

Definition set_column (name : string) (v : option Value) (t : Task) : Task :=
  {| id := id t; project := project t; data := data t;
     columns :=
       match v with
       | Some x => (name, x) :: columns t
       | None => List.filter (fun kv => negb (String.eqb (fst kv) name)) (columns t)
       end;
     annotations := annotations t; predictions := predictions t |}.

(** ** Q objects (django.db.models.Q) *)

Inductive Connector := Q_AND | Q_OR.

Definition connector_eqb (a b : Connector) : bool :=
  match a, b with
  | Q_AND, Q_AND | Q_OR, Q_OR => true
  | _, _ => false
  end.

(** A Q object is a tree node with a connector, a negation flag and
    children; a child is a keyword lookup [(key, value)] or a Q object. *)
Inductive Q : Type :=
| Lookup (key : string) (v : Value)
| Node (connector : Connector) (negated : bool) (children : list Q).

(** [Q] called with keyword arguments and with positional ones; [Q()] is
    [Q_args []]. *)
Definition Q_kw (kwargs : list (string * Value)) : Q :=
  Node Q_AND false (map (fun kv => Lookup (fst kv) (snd kv)) kwargs).

Definition Q_args (args : list Q) : Q := Node Q_AND false args.

(** [bool(q)]: a node is true when it has children. *)
Definition Q_bool (q : Q) : bool :=
  match q with
  | Lookup _ _ => true
  | Node _ _ [] => false
  | Node _ _ (_ :: _) => true
  end.

(** [self.add(data, conn_type)] of django.utils.tree.Node, giving [self] as
    the call leaves it.  Django leaves out a term that is already among the
    children; the model keeps the duplicate, which has the same meaning. *)
Definition Q_add (self data : Q) (conn_type : Connector) : Q :=
  match self with
  | Lookup _ _ => self
  | Node c neg ch =>
      if connector_eqb c conn_type then
        match data with
        | Node dc false dch =>
            if (connector_eqb dc conn_type || Nat.eqb (List.length dch) 1)%bool
            then Node c neg (ch ++ dch)
            else Node c neg (ch ++ [data])
        | _ => Node c neg (ch ++ [data])
        end
      else Node conn_type neg [Node c neg ch; data]
  end.

(** [self | other] and [self & other] *)
Definition Q_combine (self other : Q) (conn : Connector) : Q :=
  if negb (Q_bool other) then self
  else if negb (Q_bool self) then other
  else Q_add (Q_add (Node conn false []) self conn) other conn.

Definition Q_or (a b : Q) : Q := Q_combine a b Q_OR.
Definition Q_and (a b : Q) : Q := Q_combine a b Q_AND.

(** [~self] *)
Definition Q_invert (self : Q) : Q :=
  match Q_add (Q_args []) self Q_AND with
  | Node c neg ch => Node c (negb neg) ch
  | q => q
  end.

(** *** What a Q object selects

    A keyword is a column path with an optional lookup name after the last
    double underscore. *)
Definition lookup_names : list string :=
  ["isnull"; "lte"; "gte"; "lt"; "gt"; "icontains"; "regex"].

Fixpoint split_lookup_in (names : list string) (key : string) : string * string :=
  match names with
  | [] => (key, "exact")
  | n :: names' =>
      if PyStr.endswith key ("__" ++ n)
      then (PyStr.drop_end (2 + String.length n) key, n)
      else split_lookup_in names' key
  end.

Definition split_lookup (key : string) : string * string :=
  split_lookup_in lookup_names key.

(** Equality of a stored value and a right-hand side; an integer column
    compares with a float or a boolean by its number. *)
Definition sql_eq (stored rhs : Value) : bool :=
  match stored, rhs with
  | VInt a, VInt b => a =? b
  | VInt a, VFloat x | VFloat x, VInt a => float_eqb (float_of_int a) x
  | VInt a, VBool b | VBool b, VInt a => a =? (if b then 1 else 0)
  | VFloat x, VFloat y => float_eqb x y
  | VBool a, VBool b => Bool.eqb a b
  | VStr a, VStr b => String.eqb a b
  | VDatetime a, VDatetime b => datetime_eqb a b
  | _, _ => false
  end.

(** One keyword lookup on one row: whether it is true there.  [field=None]
    selects the rows whose field is null, [field__isnull=True] those where it
    is not there at all; every other comparison fails on a field that is null
    or not there. *)
Definition lookup_holds (t : Task) (key : string) (rhs : Value) : bool :=
  let '(name, op) := split_lookup key in
  let stored := get_field t name in
  if String.eqb op "isnull" then
    Bool.eqb (truthy rhs) (match stored with None => true | Some _ => false end)
  else if String.eqb op "exact" then
    match rhs, stored with
    | VNone, Some VNone => true
    | VNone, _ => false
    | _, Some x => sql_eq x rhs
    | _, None => false
    end
  else
    match stored with
    | Some VNone | None => false
    | Some x => db_lookup op x rhs
    end.

(** A comparison of a field that is null or not there is neither true nor
    false in SQL but unknown.  The two tests for null, [field=None] and
    [field__isnull], are never unknown. *)
Definition lookup_unknown (t : Task) (key : string) (rhs : Value) : bool :=
  let '(name, op) := split_lookup key in
  if String.eqb op "isnull" then false
  else if (String.eqb op "exact" && match rhs with VNone => true | _ => false end)%bool
  then false
  else
    match get_field t name with
    | Some VNone | None => true
    | Some _ => false
    end.

(** SQL truth values: [Some true], [Some false] and, for unknown, [None]. *)
Definition lookup_sql (t : Task) (key : string) (rhs : Value) : option bool :=
  if lookup_unknown t key rhs then None else Some (lookup_holds t key rhs).

Definition sql_not (a : option bool) : option bool := option_map negb a.

Definition sql_and (a b : option bool) : option bool :=
  match a, b with
  | Some false, _ | _, Some false => Some false
  | Some true, Some true => Some true
  | _, _ => None
  end.

Definition sql_or (a b : option bool) : option bool :=
  match a, b with
  | Some true, _ | _, Some true => Some true
  | Some false, Some false => Some false
  | _, _ => None
  end.

Definition is_true (a : option bool) : bool :=
  match a with
  | Some true => true
  | _ => false
  end.

Definition connect (c : Connector) (bs : list (option bool)) : option bool :=
  match c with
  | Q_AND => fold_right sql_and (Some true) bs
  | Q_OR => fold_right sql_or (Some false) bs
  end.

(** [Query.build_filter]: the condition of one keyword lookup.  Below an odd
    number of negations ([current_negated]) Django joins a comparison on a
    column of the model that may be NULL with [column IS NOT NULL], so that
    the negated condition holds on a row where the column is NULL.  A key of
    [data] and a column added by [annotate] get no such guard: there the
    negated comparison stays unknown. *)
Definition build_filter (current_negated : bool) (t : Task) (key : string) (rhs : Value)
  : option bool :=
  let condition := lookup_sql t key rhs in
  let '(name, op) := split_lookup key in
  if (current_negated
      && negb (String.eqb op "isnull")
      && match rhs with VNone => false | _ => true end
      && PyStr.mem name task_null_attnames)%bool
  then sql_and condition
         (Some (match get_field t name with Some _ => true | None => false end))
  else condition.

(** The WHERE clause of a Q object on one row ([Query._add_q]): [None] when
    the object contributes no clause (Django drops a child whose clause is
    empty), else the truth value of the clause on the row. *)
Fixpoint where_clause (current_negated : bool) (t : Task) (q : Q) : option (option bool) :=
  match q with
  | Lookup key v => Some (build_filter current_negated t key v)
  | Node c neg ch =>
      let current_negated := xorb current_negated neg in
      let fix clauses (l : list Q) : list (option bool) :=
        match l with
        | [] => []
        | x :: l' =>
            match where_clause current_negated t x with
            | Some b => b :: clauses l'
            | None => clauses l'
            end
        end in
      match clauses ch with
      | [] => None
      | bs => Some (if neg then sql_not (connect c bs) else connect c bs)
      end
  end.

(** A row is selected when the clause is true on it. *)
Definition Q_matches (q : Q) (t : Task) : bool :=
  match where_clause false t q with
  | Some b => is_true b
  | None => true
  end.

(** ** Query sets

    A query set is held by the rows it selects, in the order it yields
    them, and by whether an ordering was asked for. *)

Record QuerySet := {
  rows : list Task;
  ordered : bool
}.

Definition qs_filter (q : Q) (qs : QuerySet) : QuerySet :=
  {| rows := List.filter (Q_matches q) (rows qs); ordered := ordered qs |}.

(** [filter(project=p)] *)
Definition qs_filter_project (p : Z) (qs : QuerySet) : QuerySet :=
  {| rows := List.filter (fun t => project_id (project t) =? p) (rows qs);
     ordered := ordered qs |}.

Definition id_in (ids : list Z) (t : Task) : bool :=
  existsb (Z.eqb (id t)) ids.

(** [filter(id__in=ids)] and [exclude(id__in=ids)] *)
Definition qs_filter_id_in (ids : list Z) (qs : QuerySet) : QuerySet :=
  {| rows := List.filter (id_in ids) (rows qs); ordered := ordered qs |}.

Definition qs_exclude_id_in (ids : list Z) (qs : QuerySet) : QuerySet :=
  {| rows := List.filter (fun t => negb (id_in ids t)) (rows qs);
     ordered := ordered qs |}.

Definition qs_none (qs : QuerySet) : QuerySet :=
  {| rows := []; ordered := ordered qs |}.

(** [annotate(name=expr)] *)
Definition qs_annotate (name : string) (expr : Task -> option Value)
  (qs : QuerySet) : QuerySet :=
  {| rows := map (fun t => set_column name (expr t) t) (rows qs);
     ordered := ordered qs |}.

Definition qs_exists (qs : QuerySet) : bool :=
  match rows qs with [] => false | _ :: _ => true end.

Fixpoint insert_by (le : Task -> Task -> bool) (x : Task) (l : list Task) : list Task :=
  match l with
  | [] => [x]
  | y :: l' => if le x y then x :: l else y :: insert_by le x l'
  end.

(** The storage engine's sort, taken to be stable. *)
Definition sort_by (le : Task -> Task -> bool) (l : list Task) : list Task :=
  fold_right (insert_by le) [] l.

(** [first()]: the first row, by primary key when no ordering was asked for. *)
Definition qs_first (qs : QuerySet) : option Task :=
  hd_error (if ordered qs then rows qs
            else sort_by (fun a b => id a <=? id b) (rows qs)).

(** The sort key of a row: null for a column that is null or not there. *)
Definition order_key (name : string) (t : Task) : option Value :=
  match get_field t name with
  | Some VNone | None => None
  | Some v => Some v
  end.

Definition value_leb (a b : Value) : bool :=
  match a, b with
  | VInt x, VInt y => x <=? y
  | _, _ => db_leb a b
  end.

(** [F(name).asc(nulls_last=True)] and [F(name).desc(nulls_last=True)] as a
    comparison of two sort keys. *)
Definition nulls_last_leb (ascending : bool) (a b : option Value) : bool :=
  match a, b with
  | Some x, Some y => if ascending then value_leb x y else value_leb y x
  | Some _, None => true
  | None, Some _ => false
  | None, None => true
  end.

(** [order_by(F(name).asc(nulls_last=True))] or the [desc] form. *)
Definition qs_order_by (name : string) (ascending : bool) (qs : QuerySet) : QuerySet :=
  {| rows := sort_by (fun a b => nulls_last_leb ascending (order_key name a) (order_key name b))
               (rows qs);
     ordered := true |}.

(** [KeyTextTransform(key, 'data')] and its cast to a float column. *)
Definition KeyTextTransform (key : string) (t : Task) : option Value :=
  match assoc key (data t) with
  | Some v => json_text v
  | None => None
  end.

Definition Cast_float (expr : Task -> option Value) (t : Task) : option Value :=
  match expr t with
  | Some v => sql_cast_float v
  | None => None
  end.

(** The truth of [queryset.exists() and queryset.first().project.only_undefined_field]. *)
Definition sample_only_undefined_field (queryset : QuerySet) : bool :=
  (qs_exists queryset &&
   match qs_first queryset with
   | Some t => only_undefined_field (project t)
   | None => false
   end)%bool.

(** ** The input contract (data_manager.prepare_params) *)

Inductive ConjunctionEnum := ConjunctionEnum_OR | ConjunctionEnum_AND.

Record FilterItem := {
  filter : string;
  operator : string;
  type : string;
  value : Value
}.

Record Filters := {
  conjunction : ConjunctionEnum;
  items : list FilterItem
}.

Record SelectedItems := {
  all : bool;
  included : list Z;
  excluded : list Z
}.

Record PrepareParams := {
  pp_project : option Z;
  ordering : list string;
  filters : option Filters;
  selectedItems : option SelectedItems
}.

Definition set_value (f : FilterItem) (v : Value) : FilterItem :=
  {| filter := filter f; operator := operator f; type := type f; value := v |}.

Definition set_operator (f : FilterItem) (op : string) : FilterItem :=
  {| filter := filter f; operator := op; type := type f; value := value f |}.

(** ** managers.py *)

Definition DATETIME_FORMAT : string := "%Y-%m-%dT%H:%M:%S.%fZ".

Definition operators : list (string * string) :=
  [ ("equal", "");
    ("not_equal", "");
    ("less", "__lt");
    ("greater", "__gt");
    ("less_or_equal", "__lte");
    ("greater_or_equal", "__gte");
    ("in", "");
    ("not_in", "");
    ("empty", "__isnull");
    ("contains", "__icontains");
    ("not_contains", "__icontains");
    ("regex", "__regex") ].

(** [operators.get(key, default)] *)
Fixpoint dict_get (d : list (string * string)) (key default : string) : string :=
  match d with
  | [] => default
  | (k, v) :: d' => if String.eqb key k then v else dict_get d' key default
  end.

Definition preprocess_field_name (raw_field_name : string) (only_undefined_field : bool) : string :=
  let field_name := PyStr.replace raw_field_name "filter:tasks:" "" in
  if PyStr.startswith field_name "data." then
    if only_undefined_field then "data__" ++ DATA_UNDEFINED_NAME
    else PyStr.replace field_name "data." "data__"
  else field_name.

(** [set(result)]: the names without repetition.  Python fixes no order for
    the members of a set; the model takes the one of [nodup]. *)
Definition py_set (l : list string) : list string := nodup string_dec l.

Definition get_fields_for_annotation (prepare_params : PrepareParams) : list string :=
  let result :=
    match ordering prepare_params with
    | [] => []
    | o :: _ => [PyStr.replace (PyStr.replace o "tasks:" "") "-" ""]
    end in
  let result :=
    match filters prepare_params with
    | Some fs =>
        (result ++ map (fun _filter => PyStr.replace (filter _filter) "filter:tasks:" "")
                       (items fs))%list
    | None => result
    end in
  let result := py_set result in
  let skipped_fields := (task_attnames ++ ["id"])%list in
  let result := List.filter (fun f => negb (PyStr.mem f skipped_fields)) result in
  let result := List.filter (fun f => negb (PyStr.startswith f "data.")) result in
  result.

(** The key of [data] to order by, from the field name with "data." in it. *)
Definition ordering_json_field (queryset : QuerySet) (field_name : string) : string :=
  let field_name := PyStr.replace_first field_name "." "__" in
  let only_undefined_field := sample_only_undefined_field queryset in
  let field_name :=
    if only_undefined_field
    then re_sub "data__\w+" ("data__" ++ DATA_UNDEFINED_NAME) field_name
    else field_name in
  PyStr.replace field_name "data__" "".

Definition apply_ordering (queryset : QuerySet) (ordering : list string)
  : Exception + QuerySet :=
  match ordering with
  | o :: _ =>
      let field_name := PyStr.replace o "tasks:" "" in
      match field_name with
      | EmptyString => inl IndexError
      | String c rest =>
          let ascending := negb (Ascii.eqb c "-") in
          let field_name := if Ascii.eqb c "-" then rest else field_name in
          if PyStr.contains field_name "data." then
            let json_field := ordering_json_field queryset field_name in
            let queryset := qs_annotate "ordering_field" (KeyTextTransform json_field) queryset in
            inr (qs_order_by "ordering_field" ascending queryset)
          else
            inr (qs_order_by field_name ascending queryset)
      end
  | [] => inr (qs_order_by "id" true queryset)
  end.

(** [cast_value] writes into the filter item it is given: the result is the
    exception it left with, if any, and the item as it is afterwards. *)
Definition cast_value (_filter : FilterItem) : option Exception * FilterItem :=
  match value _filter with
  | VRange lo hi =>
      if String.eqb (type _filter) "Number" then
        match py_float lo with
        | inl e => (Some e, _filter)
        | inr lo' =>
            match py_float hi with
            | inl e => (Some e, set_value _filter (VRange lo' hi))
            | inr hi' => (None, set_value _filter (VRange lo' hi'))
            end
        end
      else if String.eqb (type _filter) "Datetime" then
        match py_strptime lo DATETIME_FORMAT with
        | inl e => (Some e, _filter)
        | inr lo' =>
            match py_strptime hi DATETIME_FORMAT with
            | inl e => (Some e, set_value _filter (VRange lo' hi))
            | inr hi' => (None, set_value _filter (VRange lo' hi'))
            end
        end
      else (None, _filter)
  | v =>
      if String.eqb (type _filter) "Number" then
        match py_float v with
        | inl e => (Some e, _filter)
        | inr v' => (None, set_value _filter v')
        end
      else if String.eqb (type _filter) "Datetime" then
        match py_strptime v DATETIME_FORMAT with
        | inl e => (Some e, _filter)
        | inr v' => (None, set_value _filter v')
        end
      else if String.eqb (type _filter) "Boolean" then
        (None, set_value _filter (cast_bool_from_str v))
      else (None, _filter)
  end.

(** What [apply_filters] does besides building the query: the calls of
    [cast_value] (with the item as it was handed over) and the log records. *)
Inductive Event :=
| Called_cast_value (_filter : FilterItem)
| Logged_info (v : Value) (err : string)
| Logged_debug (filter_expression : Q).

(** How one turn of the loop over [filters.items] ends: with the next turn,
    with a [return] or with an exception. *)
Inductive Control :=
| Next (queryset : QuerySet) (filter_expression : Q)
| Returns (queryset : QuerySet)
| Raises (e : Exception).

Record Step := {
  control : Control;
  item : FilterItem;
  events : list Event
}.

Definition counters : list string :=
  ["total_predictions"; "total_annotations"; "cancelled_annotations"].

(** special case: predictions, annotations, cancelled *)
Definition counter_special_case (clean_field_name : string) (_filter : FilterItem) : FilterItem :=
  if (PyStr.mem clean_field_name counters && String.eqb (operator _filter) "empty")%bool
  then
    set_value
      (set_operator _filter
         (if truthy (cast_bool_from_str (value _filter)) then "equal" else "not_equal"))
      (VInt 0)
  else _filter.

(** special case: for strings empty is "" or null=True *)
Definition string_empty_q (field_name : string) (empty : bool) : Q :=
  if empty then
    Q_args
      [Q_or (Q_or (Q_kw [(field_name, VStr "")]) (Q_kw [(field_name, VNone)]))
            (Q_kw [(field_name ++ "__isnull", VBool true)])]
  else
    Q_args
      [Q_and (Q_and (Q_invert (Q_kw [(field_name, VStr "")]))
                    (Q_invert (Q_kw [(field_name, VNone)])))
             (Q_invert (Q_kw [(field_name ++ "__isnull", VBool true)]))].

(** [(v.min, v.max)]: the attributes of a range object.  A datetime has
    attributes of these names too, the bounds [datetime.min] and
    [datetime.max] of its class; a number, a string, a boolean and None have
    none, and reading them raises AttributeError. *)
Definition min_max (v : Value) : option (Value * Value) :=
  match v with
  | VRange lo hi => Some (lo, hi)
  | VDatetime _ => Some (VDatetime datetime_min, VDatetime datetime_max)
  | _ => None
  end.

(** The branches [in] and [not_in]. *)
Definition range_predicate (negate : bool) (conjunction : Connector)
  (queryset : QuerySet) (filter_expression : Q) (field_name : string)
  (_filter : FilterItem) : Step :=
  let '(exc, casted) := cast_value _filter in
  match exc with
  | Some e =>
      {| control := Raises e; item := casted; events := [Called_cast_value _filter] |}
  | None =>
      match min_max (value casted) with
      | Some (lo, hi) =>
          let q := Q_kw [(field_name ++ "__gte", lo); (field_name ++ "__lte", hi)] in
          {| control :=
               Next queryset
                 (Q_add filter_expression (if negate then Q_invert q else q) conjunction);
             item := casted;
             events := [Called_cast_value _filter] |}
      | None =>
          {| control := Raises AttributeError; item := casted;
             events := [Called_cast_value _filter] |}
      end
  end.

(** The branches [starting from not_] and [all others]. *)
Definition scalar_predicate (negate : bool) (conjunction : Connector)
  (queryset : QuerySet) (filter_expression : Q) (field_name : string)
  (_filter : FilterItem) : Step :=
  let '(exc, casted) := cast_value _filter in
  match exc with
  | Some e =>
      {| control := Raises e; item := casted; events := [Called_cast_value _filter] |}
  | None =>
      let q := Q_kw [(field_name, value casted)] in
      {| control :=
           Next queryset
             (Q_add filter_expression (if negate then Q_invert q else q) conjunction);
         item := casted;
         events := [Called_cast_value _filter] |}
  end.

(** From [append operator] to the end of the loop body. *)
Definition generic_predicate (conjunction : Connector) (queryset : QuerySet)
  (filter_expression : Q) (clean_field_name : string) (_filter : FilterItem) : Step :=
  let field_name := clean_field_name ++ dict_get operators (operator _filter) "" in
  if String.eqb (operator _filter) "in" then
    range_predicate false conjunction queryset filter_expression field_name _filter
  else if String.eqb (operator _filter) "not_in" then
    range_predicate true conjunction queryset filter_expression field_name _filter
  else if String.eqb (operator _filter) "empty" then
    let q := Q_kw [(field_name, VBool true)] in
    {| control :=
         Next queryset
           (Q_add filter_expression
              (if truthy (cast_bool_from_str (value _filter)) then q else Q_invert q)
              conjunction);
       item := _filter;
       events := [] |}
  else if PyStr.startswith (operator _filter) "not_" then
    scalar_predicate true conjunction queryset filter_expression field_name _filter
  else
    scalar_predicate false conjunction queryset filter_expression field_name _filter.

(** Whether the loop passes an item over: [not
    _filter.filter.startswith("filter:tasks:") or not _filter.value]. *)
Definition skipped (_filter : FilterItem) : bool :=
  (negb (PyStr.startswith (filter _filter) "filter:tasks:")
   || negb (truthy (value _filter)))%bool.

(** The column a filter item is matched on, and the query set with the
    float column added when a number is compared with a key of [data]. *)
Definition resolve_field (only_undefined_field : bool) (queryset : QuerySet)
  (_filter : FilterItem) : string * QuerySet * string :=
  let field_name := preprocess_field_name (filter _filter) only_undefined_field in
  let field_name :=
    if String.eqb field_name "file_upload" then "file_upload_field" else field_name in
  if (String.eqb (type _filter) "Number" && PyStr.startswith field_name "data__")%bool then
    let json_field := PyStr.replace field_name "data__" "" in
    let name := "filter_" ++ PyStr.replace json_field "$undefined$" "undefined" in
    (field_name, qs_annotate name (Cast_float (KeyTextTransform json_field)) queryset, name)
  else
    (field_name, queryset, field_name).

(** The body of [for _filter in filters.items]. *)
Definition filter_item (only_undefined_field : bool) (conjunction : Connector)
  (queryset : QuerySet) (filter_expression : Q) (_filter : FilterItem) : Step :=
  if skipped _filter then
    {| control := Next queryset filter_expression; item := _filter; events := [] |}
  else
    let '(field_name, queryset, clean_field_name) :=
      resolve_field only_undefined_field queryset _filter in
    let _filter := counter_special_case clean_field_name _filter in
    if (PyStr.mem (type _filter) ["String"; "Unknown"]
        && String.eqb (operator _filter) "empty")%bool then
      let q := string_empty_q field_name (truthy (cast_bool_from_str (value _filter))) in
      {| control := Next queryset (Q_add filter_expression q conjunction);
         item := _filter; events := [] |}
    else
      match
        (if String.eqb (operator _filter) "regex"
         then re_compile (py_str (value _filter)) else None)
      with
      | Some e =>
          {| control := Returns (qs_none queryset); item := _filter;
             events := [Logged_info (value _filter) e] |}
      | None =>
          generic_predicate conjunction queryset filter_expression clean_field_name _filter
      end.

Fixpoint filter_loop (only_undefined_field : bool) (conjunction : Connector)
  (queryset : QuerySet) (filter_expression : Q) (items : list FilterItem)
  : Control * list FilterItem * list Event :=
  match items with
  | [] => (Next queryset filter_expression, [], [])
  | _filter :: rest =>
      let s := filter_item only_undefined_field conjunction queryset filter_expression _filter in
      match control s with
      | Next queryset' filter_expression' =>
          let '(c, rest', ev) :=
            filter_loop only_undefined_field conjunction queryset' filter_expression' rest in
          (c, item s :: rest', (events s ++ ev)%list)
      | c => (c, item s :: rest, events s)
      end
  end.

Inductive Outcome :=
| Returned (queryset : QuerySet)
| Raised (e : Exception).

(** A call of [apply_filters]: how it ends, the filters as the call leaves
    them, and what it logged and cast. *)
Record Applied := {
  outcome : Outcome;
  filters_after : option Filters;
  trace : list Event
}.

(** convert conjunction to orm statement *)
Definition connector_of (c : ConjunctionEnum) : Connector :=
  match c with
  | ConjunctionEnum_OR => Q_OR
  | ConjunctionEnum_AND => Q_AND
  end.

Definition apply_filters (queryset : QuerySet) (filters : option Filters) : Applied :=
  match filters with
  | None => {| outcome := Returned queryset; filters_after := None; trace := [] |}
  | Some fs =>
      let filter_expression := Q_args [] in
      let connector := connector_of (conjunction fs) in
      let only_undefined_field := sample_only_undefined_field queryset in
      let '(c, items', ev) :=
        filter_loop only_undefined_field connector queryset filter_expression (items fs) in
      let after := Some {| conjunction := conjunction fs; items := items' |} in
      match c with
      | Next queryset' filter_expression =>
          {| outcome := Returned (qs_filter filter_expression queryset');
             filters_after := after;
             trace := (ev ++ [Logged_debug filter_expression])%list |}
      | Returns queryset' =>
          {| outcome := Returned queryset'; filters_after := after; trace := ev |}
      | Raises e =>
          {| outcome := Raised e; filters_after := after; trace := ev |}
      end
  end.

(** *** TaskQuerySet *)

(** A call of [prepared]: how it ends, and [prepare_params] and the trace
    as it leaves them. *)
Record Prepared := {
  prepared_outcome : Outcome;
  params_after : PrepareParams;
  prepared_trace : list Event
}.

Definition select_items (queryset : QuerySet) (selectedItems : option SelectedItems)
  : QuerySet :=
  match selectedItems with
  | None => queryset
  | Some sel =>
      if (negb (all sel) && match included sel with [] => false | _ => true end)%bool
      then qs_filter_id_in (included sel) queryset
      else if (all sel && match excluded sel with [] => false | _ => true end)%bool
      then qs_exclude_id_in (excluded sel) queryset
      else queryset
  end.

(** The body of [prepared] on params that are given; the method as it is
    declared, with its default None, is [TaskQuerySet_prepared] below. *)
Definition prepared (self : QuerySet) (prepare_params : PrepareParams) : Prepared :=
  let queryset := self in
  let queryset :=
    match pp_project prepare_params with
    | Some p => qs_filter_project p queryset
    | None => queryset
    end in
  let a := apply_filters queryset (filters prepare_params) in
  let after :=
    {| pp_project := pp_project prepare_params;
       ordering := ordering prepare_params;
       filters := filters_after a;
       selectedItems := selectedItems prepare_params |} in
  match outcome a with
  | Raised e =>
      {| prepared_outcome := Raised e; params_after := after; prepared_trace := trace a |}
  | Returned queryset =>
      match apply_ordering queryset (ordering prepare_params) with
      | inl e =>
          {| prepared_outcome := Raised e; params_after := after; prepared_trace := trace a |}
      | inr queryset =>
          {| prepared_outcome := Returned (select_items queryset (selectedItems prepare_params));
             params_after := after;
             prepared_trace := trace a |}
      end
  end.

(** [prepared] as it is declared, with [prepare_params=None] for a call
    without params: the first line to read them, the project filter, then
    raises AttributeError. *)
Definition TaskQuerySet_prepared (self : QuerySet) (prepare_params : option PrepareParams)
  : Outcome :=
  match prepare_params with
  | None => Raised AttributeError
  | Some prepare_params => prepared_outcome (prepared self prepare_params)
  end.

(** *** The registry of computed columns and PreparedTaskManager *)

Definition AnnotationsMap : Type := list (string * (QuerySet -> QuerySet)).

(** [annotations_map[field]] *)
Fixpoint annotations_map_get (m : AnnotationsMap) (field : string)
  : option (QuerySet -> QuerySet) :=
  match m with
  | [] => None
  | (k, function) :: m' =>
      if String.eqb field k then Some function else annotations_map_get m' field
  end.

Definition coalesce (a b : option Value) : option Value :=
  match a with
  | Some x => Some x
  | None => b
  end.

Definition annotate_completed_at (queryset : QuerySet) : QuerySet :=
  qs_annotate "completed_at"
    (fun t => db_expr "Subquery(newest.values('created_at')[:1])" (id t)) queryset.

Definition annotate_annotations_results (queryset : QuerySet) : QuerySet :=
  if DJANGO_DB_is_sqlite then
    qs_annotate "annotations_results"
      (fun t => coalesce (db_expr "GroupConcat(annotations__result)" (id t)) (Some (VStr "")))
      queryset
  else
    qs_annotate "annotations_results"
      (fun t => db_expr "ArrayAgg(annotations__result)" (id t)) queryset.

Definition annotate_predictions_results (queryset : QuerySet) : QuerySet :=
  if DJANGO_DB_is_sqlite then
    qs_annotate "predictions_results"
      (fun t => coalesce (db_expr "GroupConcat(predictions__result)" (id t)) (Some (VStr "")))
      queryset
  else
    qs_annotate "predictions_results"
      (fun t => db_expr "ArrayAgg(predictions__result)" (id t)) queryset.

Definition annotate_annotators (queryset : QuerySet) : QuerySet :=
  if DJANGO_DB_is_sqlite then
    qs_annotate "annotators"
      (fun t => coalesce (db_expr "GroupConcat(annotations__completed_by)" (id t)) None)
      queryset
  else
    qs_annotate "annotators"
      (fun t => db_expr "ArrayAgg(annotations__completed_by)" (id t)) queryset.

Definition annotate_predictions_score (queryset : QuerySet) : QuerySet :=
  qs_annotate "predictions_score" (fun t => db_expr "Avg(predictions__score)" (id t)) queryset.

Definition file_upload (queryset : QuerySet) : QuerySet :=
  qs_annotate "file_upload_field" (fun t => db_expr "F(file_upload__file)" (id t)) queryset.

Definition dummy (queryset : QuerySet) : QuerySet := queryset.

(** [settings.DATA_MANAGER_ANNOTATIONS_MAP] as managers.py sets it. *)
Definition DATA_MANAGER_ANNOTATIONS_MAP : AnnotationsMap :=
  [ ("completed_at", annotate_completed_at);
    ("annotations_results", annotate_annotations_results);
    ("predictions_results", annotate_predictions_results);
    ("predictions_score", annotate_predictions_score);
    ("annotators", annotate_annotators);
    ("file_upload", file_upload);
    ("cancelled_annotations", dummy);
    ("total_annotations", dummy);
    ("total_predictions", dummy) ].

(** [settings.DATA_MANAGER_ANNOTATIONS_MAP.update(obj)] *)
Definition update_annotation_map (m obj : AnnotationsMap) : AnnotationsMap :=
  (obj ++ m)%list.

Definition count_annotations (cancelled : bool) (t : Task) : option Value :=
  Some (VInt (Z.of_nat
    (List.length (List.filter (fun a => Bool.eqb (was_cancelled a) cancelled) (annotations t))))).

(** The loop [for field in fields_for_evaluation], with the names of the
    annotators it called. *)
Fixpoint evaluate_fields (annotations_map : AnnotationsMap) (fields : list string)
  (queryset : QuerySet) : (Exception + QuerySet) * list string :=
  match fields with
  | [] => (inr queryset, [])
  | field :: rest =>
      match annotations_map_get annotations_map field with
      | None => (inl (KeyError field), [])
      | Some function =>
          let '(r, called) := evaluate_fields annotations_map rest (function queryset) in
          (r, field :: called)
      end
  end.

(** [PreparedTaskManager.get_queryset]: [table] holds the rows of the model,
    [annotations_map] is the registry as it is when the call is made. *)
Definition get_queryset (table : list Task) (annotations_map : AnnotationsMap)
  (fields_for_evaluation : option (list string)) : (Exception + QuerySet) * list string :=
  let queryset := {| rows := table; ordered := false |} in
  let fields_for_evaluation :=
    match fields_for_evaluation with
    | None => []
    | Some l => l
    end in
  let queryset :=
    qs_annotate "total_predictions"
      (fun t => Some (VInt (Z.of_nat (List.length (predictions t)))))
      (qs_annotate "cancelled_annotations" (count_annotations true)
         (qs_annotate "total_annotations" (count_annotations false) queryset)) in
  evaluate_fields annotations_map fields_for_evaluation queryset.

(** [PreparedTaskManager.all] *)
Definition manager_all (table : list Task) (annotations_map : AnnotationsMap)
  (prepare_params : PrepareParams) : Prepared * list string :=
  let fields_for_annotation := get_fields_for_annotation prepare_params in
  match get_queryset table annotations_map (Some fields_for_annotation) with
  | (inl e, called) =>
      ({| prepared_outcome := Raised e; params_after := prepare_params;
          prepared_trace := [] |}, called)
  | (inr queryset, called) => (prepared queryset prepare_params, called)
  end.

(** [all] as it is declared: without params it is [get_queryset()]. *)
Definition PreparedTaskManager_all (table : list Task) (annotations_map : AnnotationsMap)
  (prepare_params : option PrepareParams) : Outcome :=
  match prepare_params with
  | None =>
      match fst (get_queryset table annotations_map None) with
      | inl e => Raised e
      | inr queryset => Returned queryset
      end
  | Some prepare_params =>
      prepared_outcome (fst (manager_all table annotations_map prepare_params))
  end.

End Model.

(** ** A small runtime to run the definitions on

    Floats that are whole numbers, datetimes as microseconds since the epoch,
    a pattern check that rejects an unclosed bracket, and a store that
    compares integers and strings. *)

Fixpoint digits_value (acc : Z) (s : string) : option Z :=
  match s with
  | EmptyString => Some acc
  | String c s' =>
      let n := nat_of_ascii c in
      if (Nat.leb 48 n && Nat.leb n 57)%bool
      then digits_value (10 * acc + Z.of_nat (n - 48)) s'
      else None
  end.

Definition demo_float_of_str (s : string) : option Z :=
  match s with
  | EmptyString => None
  | _ => digits_value 0 s
  end.

#[export] Instance demo_types : PyTypes := {|
  float := Z;
  datetime := Z
|}.

#[export] Instance demo_lib : @PyLib demo_types := {|
  float_of_str := demo_float_of_str;
  float_of_int := fun z => z;
  float_nonzero := fun x => negb (x =? 0);
  float_eqb := Z.eqb;
  strptime := fun s fmt =>
    if (String.eqb s "2021-01-01T00:00:00.000000Z"
        && String.eqb fmt "%Y-%m-%dT%H:%M:%S.%fZ")%bool
    then Some 1609459200000000 else None;
  datetime_eqb := Z.eqb;
  datetime_min := -62135596800000000;
  datetime_max := 253402300799999999;
  re_compile := fun pattern =>
    if PyStr.endswith pattern "[" then Some "unterminated character set" else None;
  re_sub := fun _ _ s => s;
  py_repr := fun _ => "<object>"
|}.

#[export] Instance demo_backend : @Backend demo_types := {|
  db_lookup := fun op stored rhs =>
    match stored, rhs with
    | VInt a, VInt b =>
        if String.eqb op "lt" then a <? b
        else if String.eqb op "lte" then a <=? b
        else if String.eqb op "gt" then b <? a
        else if String.eqb op "gte" then b <=? a
        else false
    | VStr a, VStr b =>
        if String.eqb op "icontains" then PyStr.contains (PyStr.lower a) (PyStr.lower b)
        else false
    | _, _ => false
    end;
  db_leb := fun a b =>
    match a, b with
    | VStr x, VStr y => String.leb x y
    | _, _ => true
    end;
  json_text := fun v => match v with VNone => None | _ => Some v end;
  sql_cast_float := fun v =>
    match v with
    | VStr s => option_map VFloat (demo_float_of_str s)
    | VInt z => Some (VFloat z)
    | _ => None
    end;
  db_expr := fun _ _ => None;
  DJANGO_DB_is_sqlite := true;
  DATA_UNDEFINED_NAME := "$undefined$";
  task_attnames :=
    ["id"; "data"; "meta"; "created_at"; "updated_at"; "is_labeled"; "overlap";
     "file_upload_id"; "project_id"];
  task_null_attnames := ["meta"; "file_upload_id"]
|}.

Definition demo_project : Project :=
  {| project_id := 1; only_undefined_field := false |}.

(** A task with [n] annotations, none of them cancelled, and a text. *)
Definition demo_task (i : Z) (n : nat) (text : list (string * Value)) : Task :=
  {| id := i; project := demo_project; data := text; columns := [];
     annotations :=
       map (fun k => {| annotation_id := Z.of_nat k; was_cancelled := false |}) (seq 0 n);
     predictions := [] |}.

Definition demo_table : list Task :=
  [ demo_task 1 0 [("text", VStr "")];
    demo_task 2 1 [("text", VStr "cat")];
    demo_task 3 2 [] ].

Definition demo_item (f op ty : string) (v : Value) : FilterItem :=
  {| filter := f; operator := op; type := ty; value := v |}.

Definition demo_params (fs : list FilterItem) : PrepareParams :=
  {| pp_project := None; ordering := [];
     filters := Some {| conjunction := ConjunctionEnum_AND; items := fs |};
     selectedItems := None |}.


(** The task table with the three counters of [get_queryset] on every row. *)
Definition demo_queryset : QuerySet :=
  match fst (get_queryset demo_table DATA_MANAGER_ANNOTATIONS_MAP None) with
  | inr queryset => queryset
  | inl _ => {| rows := []; ordered := false |}
  end.

Definition returned_ids (o : Outcome) : option (list Z) :=
  match o with
  | Returned queryset => Some (map id (rows queryset))
  | Raised _ => None
  end.

(** A build with a project, two filters, an ordering and a selection. *)
Definition demo_sorted_params : PrepareParams :=
  {| pp_project := Some 1;
     ordering := ["tasks:-data.text"];
     filters :=
       Some {| conjunction := ConjunctionEnum_OR;
               items := [demo_item "filter:tasks:total_annotations" "greater_or_equal"
                           "Unknown" (VInt 1);
                         demo_item "filter:tasks:data.text" "empty" "String" (VStr "true")] |};
     selectedItems := Some {| all := true; included := []; excluded := [3] |} |}.

(** The truth values of the clauses of the children of a node, as
    [where_clause] collects them. *)
Definition clauses `{T : PyTypes} `{L : @PyLib T} `{B : @Backend T}
  (current_negated : bool) (t : Task) : list Q -> list (option bool) :=
  fix go (l : list Q) : list (option bool) :=
    match l with
    | [] => []
    | x :: l' =>
        match where_clause current_negated t x with
        | Some b => b :: go l'
        | None => go l'
        end
    end.

(** [prepare_params] with another selection. *)
Definition with_selection `{T : PyTypes} (prepare_params : PrepareParams)
  (sel : option SelectedItems) : PrepareParams :=
  {| pp_project := pp_project prepare_params;
     ordering := ordering prepare_params;
     filters := filters prepare_params;
     selectedItems := sel |}.

(** What a query build may write into a filter item [f], giving [f']: the
    counter special case may replace an operator "empty" by "equal" or
    "not_equal" together with the value 0, and [cast_value] may then replace
    the value by its coerced form; the field path and the type stay. *)
Definition written_by_build `{T : PyTypes} `{L : @PyLib T} (f f' : FilterItem) : Prop :=
  exists g,
    (g = f \/
     (operator f = "empty" /\
      exists op, In op ["equal"; "not_equal"] /\
                 g = set_value (set_operator f op) (VInt 0))) /\
    (f' = g \/ f' = snd (cast_value g)).

(** A field of a row that is the empty string, null, or not set. *)
Definition field_is_blank `{T : PyTypes} (t : Task) (name : string) : bool :=
  match get_field t name with
  | None => true
  | Some VNone => true
  | Some (VStr x) => PyStr.is_empty x
  | Some _ => false
  end.

(** A row with the three counters as [get_queryset] computes them: the
    number of its annotations that are not cancelled, the number of those
    that are, and the number of its predictions. *)
Definition has_counters `{T : PyTypes} (t : Task) : Prop :=
  get_field t "total_annotations" = count_annotations false t /\
  get_field t "cancelled_annotations" = count_annotations true t /\
  get_field t "total_predictions" = Some (VInt (Z.of_nat (List.length (predictions t)))).

(** An annotator that leaves the three counters on every row. *)
Definition keeps_counters `{T : PyTypes} (function : QuerySet -> QuerySet) : Prop :=
  forall queryset,
    Forall has_counters (rows queryset) -> Forall has_counters (rows (function queryset)).




(** In a list of rows, no row with a null sort key comes before a row with
    a sort key that is not null. *)
Fixpoint nulls_last `{T : PyTypes} (key : Task -> option Value) (l : list Task) : Prop :=
  match l with
  | [] => True
  | t :: l' => (key t = None -> Forall (fun u => key u = None) l') /\ nulls_last key l'
  end.

(** * Properties *)

Section Proofs.
Context `{T : PyTypes} `{L : @PyLib T} `{B : @Backend T}.

(** ** The loop of [apply_filters] *)

Lemma filter_all_true (l : list Task) : List.filter (fun _ => true) l = l.
Proof.
  induction l as [|t l IH]; simpl; [reflexivity | now rewrite IH].
Qed.

Lemma Q_matches_empty (t : Task) : Q_matches (Q_args []) t = true.
Proof. reflexivity. Qed.

Lemma qs_filter_empty (queryset : QuerySet) : qs_filter (Q_args []) queryset = queryset.
Proof.
  destruct queryset as [r o]. unfold qs_filter. simpl.
  now rewrite (List.filter_ext _ (fun _ => true) Q_matches_empty), filter_all_true.
Qed.

Lemma skipped_iff (f : FilterItem) :
  skipped f = true <->
  PyStr.startswith (filter f) "filter:tasks:" = false \/ truthy (value f) = false.
Proof.
  unfold skipped. rewrite orb_true_iff, !negb_true_iff. tauto.
Qed.

Lemma filter_item_skipped ouf conj queryset expr (f : FilterItem) :
  skipped f = true ->
  filter_item ouf conj queryset expr f =
  {| control := Next queryset expr; item := f; events := [] |}.
Proof. intros H. unfold filter_item. now rewrite H. Qed.

Lemma filter_loop_all_skipped ouf conj queryset expr (l : list FilterItem) :
  Forall (fun f => skipped f = true) l ->
  filter_loop ouf conj queryset expr l = (Next queryset expr, l, []).
Proof.
  induction 1 as [|f l Hf _ IH]; simpl; [reflexivity|].
  rewrite (filter_item_skipped _ _ _ _ _ Hf). simpl. now rewrite IH.
Qed.

(** The loop over [pre ++ rest] when the turns for [pre] all end with the
    next turn. *)
Lemma filter_loop_app ouf conj queryset expr pre rest queryset1 expr1 pre' ev1 :
  filter_loop ouf conj queryset expr pre = (Next queryset1 expr1, pre', ev1) ->
  filter_loop ouf conj queryset expr (pre ++ rest) =
  let '(c, rest', ev2) := filter_loop ouf conj queryset1 expr1 rest in
  (c, pre' ++ rest', ev1 ++ ev2)%list.
Proof.
  revert queryset expr pre' ev1.
  induction pre as [|f pre IH]; intros queryset expr pre' ev1 H; simpl in *.
  - inversion H; subst. simpl.
    now destruct (filter_loop ouf conj queryset1 expr1 rest) as [[c r] e].
  - destruct (control (filter_item ouf conj queryset expr f)) as [q' e'| |] eqn:Hc;
      try discriminate.
    destruct (filter_loop ouf conj q' e' pre) as [[c r] e] eqn:Hl.
    inversion H; subst.
    rewrite (IH _ _ _ _ Hl).
    destruct (filter_loop ouf conj queryset1 expr1 rest) as [[c2 r2] e2].
    now rewrite app_assoc.
Qed.

(** An item the loop passes over changes neither how the loop ends nor
    what it records. *)
Lemma filter_loop_skip_middle ouf conj queryset expr pre s post :
  skipped s = true ->
  fst (fst (filter_loop ouf conj queryset expr (pre ++ s :: post))) =
  fst (fst (filter_loop ouf conj queryset expr (pre ++ post))) /\
  snd (filter_loop ouf conj queryset expr (pre ++ s :: post)) =
  snd (filter_loop ouf conj queryset expr (pre ++ post)).
Proof.
  intros Hs. revert queryset expr.
  induction pre as [|f pre IH]; intros queryset expr; simpl.
  - rewrite (filter_item_skipped _ _ _ _ _ Hs). simpl.
    now destruct (filter_loop ouf conj queryset expr post) as [[c r] e].
  - destruct (control (filter_item ouf conj queryset expr f)) as [q' e'| |];
      try (split; reflexivity).
    specialize (IH q' e').
    destruct (filter_loop ouf conj q' e' (pre ++ s :: post)) as [[c1 r1] ev1].
    destruct (filter_loop ouf conj q' e' (pre ++ post)) as [[c2 r2] ev2].
    simpl in *. destruct IH as [-> ->]. split; reflexivity.
Qed.

(** How [apply_filters] ends, from how its loop ends. *)
Lemma apply_filters_outcome queryset (fs : Filters) :
  outcome (apply_filters queryset (Some fs)) =
  match
    fst (fst (filter_loop (sample_only_undefined_field queryset)
                (connector_of (conjunction fs)) queryset (Q_args []) (items fs)))
  with
  | Next queryset' filter_expression => Returned (qs_filter filter_expression queryset')
  | Returns queryset' => Returned queryset'
  | Raises e => Raised e
  end.
Proof.
  unfold apply_filters.
  destruct (filter_loop _ _ queryset (Q_args []) (items fs)) as [[c r] ev].
  now destruct c.
Qed.

(** C4: a filter item whose value is falsy, or whose field path does not
    start with "filter:tasks:", adds no predicate: its turn of the loop leaves
    the query set, the expression and the item as they are; without filters,
    and with filters all of whose items are of that kind (none at all
    included), [apply_filters] returns the query set it was given; and
    such an item among others does not change what is returned. *)
Theorem C4_skipped_items_add_no_predicate :
  (forall ouf conj queryset expr (f : FilterItem),
      PyStr.startswith (filter f) "filter:tasks:" = false \/ truthy (value f) = false ->
      filter_item ouf conj queryset expr f =
      {| control := Next queryset expr; item := f; events := [] |}) /\
  (forall queryset, outcome (apply_filters queryset None) = Returned queryset) /\
  (forall queryset (fs : Filters),
      Forall (fun f => PyStr.startswith (filter f) "filter:tasks:" = false
                       \/ truthy (value f) = false) (items fs) ->
      outcome (apply_filters queryset (Some fs)) = Returned queryset) /\
  (forall queryset c pre (s : FilterItem) post,
      PyStr.startswith (filter s) "filter:tasks:" = false \/ truthy (value s) = false ->
      outcome (apply_filters queryset (Some {| conjunction := c; items := pre ++ s :: post |})) =
      outcome (apply_filters queryset (Some {| conjunction := c; items := pre ++ post |}))).
Proof.
  repeat split.
  - intros. apply filter_item_skipped. now apply skipped_iff.
  - intros queryset fs H. rewrite apply_filters_outcome.
    rewrite filter_loop_all_skipped.
    + simpl. now rewrite qs_filter_empty.
    + eapply Forall_impl; [|exact H]. intros f Hf. now apply skipped_iff.
  - intros queryset c pre s post H. rewrite !apply_filters_outcome. simpl.
    apply skipped_iff in H.
    now rewrite (proj1 (filter_loop_skip_middle _ _ _ _ pre _ post H)).
Qed.

(** ** Selection *)

Lemma prepared_selection self (prepare_params : PrepareParams) sel :
  prepared_outcome (prepared self (with_selection prepare_params sel)) =
  match prepared_outcome (prepared self (with_selection prepare_params None)) with
  | Returned queryset => Returned (select_items queryset sel)
  | Raised e => Raised e
  end.
Proof.
  unfold prepared, with_selection. simpl.
  destruct (outcome (apply_filters _ (filters prepare_params))) as [q|e]; [|reflexivity].
  destruct (apply_ordering q (ordering prepare_params)); reflexivity.
Qed.

(** C10: with [all] false and no included id, and with [all] true and no
    excluded id, [prepared] returns what it returns without any selection:
    the whole filtered and ordered set. *)
Theorem C10_empty_id_list_restricts_nothing :
  forall self (prepare_params : PrepareParams) (ids : list Z),
    prepared_outcome
      (prepared self
         (with_selection prepare_params
            (Some {| all := false; included := []; excluded := ids |}))) =
    prepared_outcome (prepared self (with_selection prepare_params None)) /\
    prepared_outcome
      (prepared self
         (with_selection prepare_params
            (Some {| all := true; included := ids; excluded := [] |}))) =
    prepared_outcome (prepared self (with_selection prepare_params None)).
Proof.
  intros self pp ids.
  rewrite (prepared_selection self pp (Some {| all := false; included := []; excluded := ids |})).
  rewrite (prepared_selection self pp (Some {| all := true; included := ids; excluded := [] |})).
  destruct (prepared_outcome (prepared self (with_selection pp None))); split; reflexivity.
Qed.

(** C5, amended: the selection is applied to what filtering and ordering
    return.  Without a selection nothing is restricted; with [all] false and
    a non-empty included list the rows are those of the filtered and ordered
    set whose id is in the list, in the same order; with [all] true they are
    those whose id is not in the excluded list. *)
Theorem C5_selection_applied_last :
  forall self (prepare_params : PrepareParams) (sel : option SelectedItems),
    prepared_outcome (prepared self (with_selection prepare_params sel)) =
    match prepared_outcome (prepared self (with_selection prepare_params None)) with
    | Returned queryset => Returned (select_items queryset sel)
    | Raised e => Raised e
    end /\
    (forall queryset, select_items queryset None = queryset) /\
    (forall queryset inc exc,
        inc <> [] ->
        rows (select_items queryset (Some {| all := false; included := inc; excluded := exc |})) =
        List.filter (fun t => existsb (Z.eqb (id t)) inc) (rows queryset)) /\
    (forall queryset inc exc,
        rows (select_items queryset (Some {| all := true; included := inc; excluded := exc |})) =
        List.filter (fun t => negb (existsb (Z.eqb (id t)) exc)) (rows queryset)).
Proof.
  intros self pp sel. split; [apply prepared_selection|].
  split; [reflexivity|]. split.
  - intros q inc exc Hne. destruct inc; [contradiction|reflexivity].
  - intros q inc exc. destruct exc; simpl; [|reflexivity].
    now rewrite filter_all_true.
Qed.

(** ** What the build writes into the filter items *)

Lemma Forall2_conj (A C : Type) (P R : A -> C -> Prop) (l : list A) (l' : list C) :
  Forall2 P l l' -> Forall2 R l l' -> Forall2 (fun a c => P a c /\ R a c) l l'.
Proof.
  intros H. induction H; intros HR; inversion HR; subst; constructor; auto.
Qed.

Lemma set_value_same (f : FilterItem) : set_value f (value f) = f.
Proof. now destruct f. Qed.

Lemma cast_value_sets_value (g : FilterItem) :
  exists v, snd (cast_value g) = set_value g v.
Proof.
  unfold cast_value.
  assert (Hid : exists v, g = set_value g v)
    by (exists (value g); now rewrite set_value_same).
  destruct (value g);
    repeat match goal with
      | |- context [if ?b then _ else _] => destruct b
      | |- context [match py_float ?v with _ => _ end] => destruct (py_float v)
      | |- context [match py_strptime ?v ?f with _ => _ end] => destruct (py_strptime v f)
      end; simpl; eauto.
Qed.

Lemma counter_special_case_writes clean (f : FilterItem) :
  counter_special_case clean f = f \/
  (operator f = "empty" /\
   exists op, In op ["equal"; "not_equal"] /\
              counter_special_case clean f = set_value (set_operator f op) (VInt 0)).
Proof.
  unfold counter_special_case.
  destruct (PyStr.mem clean counters && String.eqb (operator f) "empty")%bool eqn:E;
    [right|left; reflexivity].
  apply andb_true_iff in E. destruct E as [_ E]. apply String.eqb_eq in E.
  split; [exact E|].
  destruct (truthy (cast_bool_from_str (value f)));
    eexists; (split; [|reflexivity]); simpl; auto.
Qed.

Lemma generic_predicate_item conj queryset expr clean (g : FilterItem) :
  item (generic_predicate conj queryset expr clean g) = g \/
  item (generic_predicate conj queryset expr clean g) = snd (cast_value g).
Proof.
  unfold generic_predicate, range_predicate, scalar_predicate.
  destruct (cast_value g) as [[e|] casted]; simpl;
    repeat match goal with
      | |- context [if ?b then _ else _] => destruct b
      | |- context [match min_max ?v with _ => _ end] => destruct (min_max v) as [[? ?]|]
      end; simpl; auto.
Qed.

Lemma filter_item_writes ouf conj queryset expr (f : FilterItem) :
  written_by_build f (item (filter_item ouf conj queryset expr f)).
Proof.
  unfold written_by_build, filter_item.
  destruct (skipped f); [exists f; simpl; auto|].
  destruct (resolve_field ouf queryset f) as [[fn q'] clean].
  exists (counter_special_case clean f). split.
  - destruct (counter_special_case_writes clean f) as [-> | [Ho [op [Hin ->]]]]; [now left|].
    right. split; [exact Ho|]. now exists op.
  - destruct (PyStr.mem _ _ && String.eqb _ _)%bool; [now left|].
    destruct (if String.eqb _ _ then _ else _); [now left|].
    apply generic_predicate_item.
Qed.

Lemma written_by_build_refl (f : FilterItem) : written_by_build f f.
Proof. exists f. auto. Qed.

Lemma filter_loop_writes ouf conj queryset expr (l : list FilterItem) :
  Forall2 written_by_build l (snd (fst (filter_loop ouf conj queryset expr l))).
Proof.
  revert queryset expr. induction l as [|f l IH]; intros queryset expr; simpl.
  - constructor.
  - pose proof (filter_item_writes ouf conj queryset expr f) as Hf.
    destruct (control (filter_item ouf conj queryset expr f)) as [q' e'| |]; simpl.
    + specialize (IH q' e').
      destruct (filter_loop ouf conj q' e' l) as [[c r] ev]. simpl in *.
      now constructor.
    + constructor; [exact Hf|].
      clear. induction l; constructor; auto using written_by_build_refl.
    + constructor; [exact Hf|].
      clear. induction l; constructor; auto using written_by_build_refl.
Qed.

Lemma written_by_build_keeps (f f' : FilterItem) :
  written_by_build f f' -> filter f' = filter f /\ type f' = type f.
Proof.
  intros [g [Hg Hf']].
  assert (Hgf : filter g = filter f /\ type g = type f).
  { destruct Hg as [-> | [_ [op [_ ->]]]]; simpl; auto. }
  destruct Hf' as [-> | ->]; [exact Hgf|].
  destruct (cast_value_sets_value g) as [v ->]. simpl. exact Hgf.
Qed.

Lemma filter_loop_keeps_skipped ouf conj queryset expr (l : list FilterItem) :
  Forall2 (fun f f' => skipped f = true -> f' = f) l
    (snd (fst (filter_loop ouf conj queryset expr l))).
Proof.
  revert queryset expr. induction l as [|f l IH]; intros queryset expr; simpl.
  - constructor.
  - assert (Hf : skipped f = true -> item (filter_item ouf conj queryset expr f) = f).
    { intros H. now rewrite (filter_item_skipped _ _ _ _ _ H). }
    destruct (control (filter_item ouf conj queryset expr f)) as [q' e'| |]; simpl.
    + specialize (IH q' e').
      destruct (filter_loop ouf conj q' e' l) as [[c r] ev]. simpl in *.
      now constructor.
    + constructor; [exact Hf|]. clear. induction l; constructor; auto.
    + constructor; [exact Hf|]. clear. induction l; constructor; auto.
Qed.

Lemma apply_filters_after queryset (fs : Filters) :
  filters_after (apply_filters queryset (Some fs)) =
  Some {| conjunction := conjunction fs;
          items := snd (fst (filter_loop (sample_only_undefined_field queryset)
                               (connector_of (conjunction fs)) queryset (Q_args []) (items fs))) |}.
Proof.
  unfold apply_filters.
  destruct (filter_loop _ _ queryset (Q_args []) (items fs)) as [[c r] ev].
  now destruct c.
Qed.

(** C7, amended: a query build leaves the project, the ordering, the
    selection and the conjunction of [prepare_params] as they are, and keeps
    the filter items in number and order, each with its field path and type.
    It does write into the items: the counter special case replaces the
    operator "empty" by "equal" or "not_equal" and the value by 0, and
    [cast_value] replaces the value by its coerced form.  An item the loop
    passes over is left as it is. *)
Theorem C7_build_writes_operator_and_value_only :
  forall self (prepare_params : PrepareParams),
    let after := params_after (prepared self prepare_params) in
    pp_project after = pp_project prepare_params /\
    ordering after = ordering prepare_params /\
    selectedItems after = selectedItems prepare_params /\
    match filters prepare_params, filters after with
    | None, None => True
    | Some fs, Some fs' =>
        conjunction fs' = conjunction fs /\
        Forall2 (fun f f' =>
                   filter f' = filter f /\ type f' = type f /\
                   written_by_build f f' /\
                   (skipped f = true -> f' = f))
          (items fs) (items fs')
    | _, _ => False
    end.
Proof.
  intros self pp after.
  assert (Hafter : after =
    {| pp_project := pp_project pp; ordering := ordering pp;
       filters := filters_after (apply_filters
                    (match pp_project pp with
                     | Some p => qs_filter_project p self
                     | None => self
                     end) (filters pp));
       selectedItems := selectedItems pp |}).
  { unfold after, prepared.
    destruct (outcome (apply_filters _ (filters pp))); [|reflexivity].
    destruct (apply_ordering _ (ordering pp)); reflexivity. }
  rewrite Hafter. simpl. repeat split.
  destruct (filters pp) as [fs|]; [|exact I].
  rewrite apply_filters_after. simpl. split; [reflexivity|].
  set (ouf := sample_only_undefined_field _).
  set (conn := connector_of (conjunction fs)).
  set (q0 := match pp_project pp with Some p => _ | None => _ end).
  pose proof (filter_loop_writes ouf conn q0 (Q_args []) (items fs)) as H1.
  pose proof (filter_loop_keeps_skipped ouf conn q0 (Q_args []) (items fs)) as H2.
  eapply Forall2_impl; [|exact (Forall2_conj _ _ _ _ _ _ H1 H2)].
  intros f f' [Hw Hs]. destruct (written_by_build_keeps _ _ Hw) as [Ha Hb]. auto.
Qed.

(** ** Leaving the loop early *)

(** [apply_filters] when the turn for [f] ends the loop, the turns before it
    having ended with the next turn. *)
Lemma apply_filters_exit queryset c pre (f : FilterItem) post queryset1 expr1 pre' ev1 :
  filter_loop (sample_only_undefined_field queryset) (connector_of c) queryset (Q_args []) pre
  = (Next queryset1 expr1, pre', ev1) ->
  forall o,
    match control (filter_item (sample_only_undefined_field queryset) (connector_of c)
                     queryset1 expr1 f) with
    | Next _ _ => False
    | Returns q => o = Returned q
    | Raises e => o = Raised e
    end ->
    apply_filters queryset (Some {| conjunction := c; items := pre ++ f :: post |}) =
    {| outcome := o;
       filters_after :=
         Some {| conjunction := c;
                 items := pre' ++ item (filter_item (sample_only_undefined_field queryset)
                                          (connector_of c) queryset1 expr1 f) :: post |};
       trace := ev1 ++ events (filter_item (sample_only_undefined_field queryset)
                                 (connector_of c) queryset1 expr1 f) |}.
Proof.
  intros Hpre o Ho. unfold apply_filters. simpl.
  rewrite (filter_loop_app _ _ _ _ _ (f :: post) _ _ _ _ Hpre). simpl.
  destruct (control (filter_item _ _ queryset1 expr1 f)) as [q e|q|e];
    [contradiction| |]; subst o; reflexivity.
Qed.

Lemma filter_item_bad_regex ouf conj queryset expr (bad : FilterItem) err :
  PyStr.startswith (filter bad) "filter:tasks:" = true ->
  truthy (value bad) = true ->
  operator bad = "regex" ->
  re_compile (py_str (value bad)) = Some err ->
  exists queryset',
    filter_item ouf conj queryset expr bad =
    {| control := Returns (qs_none queryset'); item := bad;
       events := [Logged_info (value bad) err] |}.
Proof.
  intros Hp Hv Hop Hre. unfold filter_item, skipped. rewrite Hp, Hv. simpl.
  destruct (resolve_field ouf queryset bad) as [[fn q'] clean].
  unfold counter_special_case. rewrite Hop. simpl.
  rewrite !andb_false_r. rewrite Hop. simpl. rewrite Hre.
  rewrite andb_false_r. now exists q'.
Qed.

(** C3, amended: when the loop reaches a filter item with the routing
    prefix and a truthy value whose operator is "regex" and whose value, as a
    string, does not compile (every item before it having been dealt with
    without an exception or a return), [apply_filters] returns an empty query
    set, records the value and the error in the log, and raises nothing. *)
Theorem C3_bad_regex_returns_empty_set :
  forall queryset c pre (bad : FilterItem) post queryset1 expr1 pre' ev1 err,
    filter_loop (sample_only_undefined_field queryset) (connector_of c) queryset (Q_args []) pre
    = (Next queryset1 expr1, pre', ev1) ->
    PyStr.startswith (filter bad) "filter:tasks:" = true ->
    truthy (value bad) = true ->
    operator bad = "regex" ->
    re_compile (py_str (value bad)) = Some err ->
    exists queryset',
      outcome (apply_filters queryset
                 (Some {| conjunction := c; items := pre ++ bad :: post |}))
      = Returned queryset' /\
      rows queryset' = [] /\
      trace (apply_filters queryset
               (Some {| conjunction := c; items := pre ++ bad :: post |}))
      = (ev1 ++ [Logged_info (value bad) err])%list.
Proof.
  intros queryset c pre bad post q1 e1 pre' ev1 err Hpre Hp Hv Hop Hre.
  destruct (filter_item_bad_regex (sample_only_undefined_field queryset) (connector_of c)
              q1 e1 bad err Hp Hv Hop Hre) as [q' Hstep].
  exists (qs_none q').
  rewrite (apply_filters_exit queryset c pre bad post q1 e1 pre' ev1 Hpre
             (Returned (qs_none q'))).
  - simpl. rewrite Hstep. simpl. auto.
  - rewrite Hstep. reflexivity.
Qed.

(** ** Coercion on the generic path *)

Lemma filter_item_generic ouf conj queryset expr (f : FilterItem) :
  PyStr.startswith (filter f) "filter:tasks:" = true ->
  truthy (value f) = true ->
  operator f <> "empty" ->
  (operator f = "regex" -> re_compile (py_str (value f)) = None) ->
  filter_item ouf conj queryset expr f =
  generic_predicate conj (snd (fst (resolve_field ouf queryset f))) expr
    (snd (resolve_field ouf queryset f)) f.
Proof.
  intros Hp Hv Hne Hre. unfold filter_item, skipped. rewrite Hp, Hv. simpl.
  destruct (resolve_field ouf queryset f) as [[fn q'] clean]. simpl.
  apply String.eqb_neq in Hne.
  unfold counter_special_case. rewrite Hne, !andb_false_r. rewrite Hne, andb_false_r.
  destruct (String.eqb (operator f) "regex") eqn:E; [|reflexivity].
  apply String.eqb_eq in E. now rewrite (Hre E).
Qed.


Lemma py_float_is_float (v w : Value) :
  py_float v = inr w -> exists x, w = VFloat x.
Proof.
  destruct v; simpl; try discriminate;
    try (destruct (float_of_str s); [|discriminate]);
    intros H; inversion H; eauto.
Qed.








(** ** The counter special case *)

Lemma resolve_field_counter ouf queryset (f : FilterItem) c :
  In c counters -> filter f = "filter:tasks:" ++ c ->
  resolve_field ouf queryset f = (c, queryset, c).
Proof.
  intros Hin Hf. unfold resolve_field. rewrite Hf.
  destruct Hin as [<- | [<- | [<- | []]]]; simpl;
    now rewrite andb_false_r.
Qed.

Lemma filter_item_counter ouf conj queryset expr (f : FilterItem) c :
  In c counters ->
  filter f = "filter:tasks:" ++ c ->
  operator f = "empty" ->
  truthy (value f) = true ->
  filter_item ouf conj queryset expr f =
  scalar_predicate (negb (truthy (cast_bool_from_str (value f)))) conj queryset expr c
    (set_value
       (set_operator f
          (if truthy (cast_bool_from_str (value f)) then "equal" else "not_equal"))
       (VInt 0)).
Proof.
  intros Hin Hf Hop Hv. unfold filter_item, skipped.
  rewrite (resolve_field_counter ouf queryset f c Hin Hf).
  rewrite Hv, Hf.
  replace (PyStr.startswith ("filter:tasks:" ++ c) "filter:tasks:") with true
    by (destruct Hin as [<- | [<- | [<- | []]]]; reflexivity).
  simpl negb. simpl orb. cbv iota.
  unfold counter_special_case. rewrite Hop.
  replace (PyStr.mem c counters) with true
    by (destruct Hin as [<- | [<- | [<- | []]]]; reflexivity).
  simpl andb. cbv iota.
  unfold generic_predicate.
  destruct (truthy (cast_bool_from_str (value f))); simpl;
    rewrite andb_false_r;
    destruct Hin as [<- | [<- | [<- | []]]]; reflexivity.
Qed.

Lemma cast_value_zero (g : FilterItem) :
  value g = VInt 0 ->
  cast_value g =
  if String.eqb (type g) "Number" then (None, set_value g (VFloat (float_of_int 0)))
  else if String.eqb (type g) "Datetime" then (Some TypeError, g)
  else (None, g).
Proof.
  intros Hv. unfold cast_value. rewrite Hv. simpl.
  destruct (String.eqb (type g) "Number"); [reflexivity|].
  destruct (String.eqb (type g) "Datetime"); [reflexivity|].
  destruct (String.eqb (type g) "Boolean"); [|reflexivity].
  rewrite <- Hv. now rewrite set_value_same.
Qed.

(** Truth values: a lookup that is unknown is not true, and a conjunction
    or disjunction is true when all, respectively some, of its terms are. *)
Lemma lookup_unknown_fails (t : Task) key rhs :
  lookup_unknown t key rhs = true -> lookup_holds t key rhs = false.
Proof.
  unfold lookup_unknown, lookup_holds.
  destruct (split_lookup key) as [name op].
  destruct (String.eqb op "isnull"); [discriminate|].
  destruct (String.eqb op "exact"); simpl.
  - destruct rhs; try discriminate;
      destruct (get_field t name) as [[]|]; try discriminate; reflexivity.
  - destruct (get_field t name) as [[]|]; try discriminate; reflexivity.
Qed.

Lemma is_true_lookup_sql (t : Task) key rhs :
  is_true (lookup_sql t key rhs) = lookup_holds t key rhs.
Proof.
  unfold lookup_sql. destruct (lookup_unknown t key rhs) eqn:E; simpl.
  - symmetry. now apply lookup_unknown_fails.
  - now destruct (lookup_holds t key rhs).
Qed.

Lemma build_filter_positive (t : Task) key rhs :
  build_filter false t key rhs = lookup_sql t key rhs.
Proof. unfold build_filter. now destruct (split_lookup key). Qed.

Lemma is_true_and a b : is_true (sql_and a b) = (is_true a && is_true b)%bool.
Proof. destruct a as [[|]|], b as [[|]|]; reflexivity. Qed.

Lemma is_true_or a b : is_true (sql_or a b) = (is_true a || is_true b)%bool.
Proof. destruct a as [[|]|], b as [[|]|]; reflexivity. Qed.

#[local] Arguments build_filter : simpl never.
#[local] Arguments lookup_sql : simpl never.

Lemma Q_matches_single conn key v (t : Task) :
  Q_matches (Q_add (Q_args []) (Q_kw [(key, v)]) conn) t = lookup_holds t key v.
Proof.
  destruct conn; unfold Q_matches; simpl;
    rewrite ?is_true_or, ?is_true_and, build_filter_positive, is_true_lookup_sql; simpl;
    now rewrite ?orb_false_r, ?andb_true_r.
Qed.

Lemma lookup_holds_total_annotations (t : Task) :
  lookup_holds t "total_annotations" (VInt 0) =
  match get_field t "total_annotations" with
  | Some v => sql_eq v (VInt 0)
  | None => false
  end.
Proof.
  unfold lookup_holds.
  change (split_lookup "total_annotations") with ("total_annotations", "exact").
  simpl. now destruct (get_field t "total_annotations") as [[]|].
Qed.

(** C1, amended: a filter item whose path is "filter:tasks:" followed by one
    of the three counters, whose operator is "empty" and whose value is
    truthy (so that the loop does not pass it over) is rewritten: its
    operator becomes "equal" when the value coerces to true and "not_equal"
    when it coerces to false, and its value becomes 0, which [cast_value]
    then coerces by the type of the item (the float 0 for "Number", TypeError
    for "Datetime"); the predicate added compares the counter with that 0.
    For the filter on total_annotations with operator "empty", type "Boolean"
    and value "true" the rows returned are those whose total_annotations is 0:
    of three tasks with 0, 1 and 2 annotations, the first. *)
Theorem C1_counter_empty_becomes_equal_zero :
  (forall ouf conj queryset expr (f : FilterItem) c,
      In c counters ->
      filter f = "filter:tasks:" ++ c ->
      operator f = "empty" ->
      truthy (value f) = true ->
      let s := filter_item ouf conj queryset expr f in
      let yes := truthy (cast_bool_from_str (value f)) in
      let zero := if String.eqb (type f) "Number" then VFloat (float_of_int 0) else VInt 0 in
      filter (item s) = filter f /\
      type (item s) = type f /\
      operator (item s) = (if yes then "equal" else "not_equal") /\
      value (item s) = zero /\
      control s =
        if (negb (String.eqb (type f) "Number") && String.eqb (type f) "Datetime")%bool
        then Raises TypeError
        else Next queryset
               (Q_add expr
                  (if yes then Q_kw [(c, zero)] else Q_invert (Q_kw [(c, zero)])) conj)) /\
  (forall queryset cj,
      let f := {| filter := "filter:tasks:total_annotations"; operator := "empty";
                  type := "Boolean"; value := VStr "true" |} in
      exists queryset',
        outcome (apply_filters queryset (Some {| conjunction := cj; items := [f] |}))
        = Returned queryset' /\
        rows queryset' =
          List.filter (fun t => match get_field t "total_annotations" with
                                | Some v => sql_eq v (VInt 0)
                                | None => false
                                end) (rows queryset) /\
        (forall t0 t1 t2,
            rows queryset = [t0; t1; t2] ->
            get_field t0 "total_annotations" = Some (VInt 0) ->
            get_field t1 "total_annotations" = Some (VInt 1) ->
            get_field t2 "total_annotations" = Some (VInt 2) ->
            rows queryset' = [t0])).
Proof.
  split.
  - intros ouf conj queryset expr f c Hin Hf Hop Hv s yes zero.
    unfold s. rewrite (filter_item_counter ouf conj queryset expr f c Hin Hf Hop Hv).
    fold yes. unfold scalar_predicate.
    rewrite cast_value_zero by reflexivity. simpl type.
    unfold zero.
    destruct (String.eqb (type f) "Number"); simpl.
    + destruct yes; repeat split.
    + destruct (String.eqb (type f) "Datetime"); simpl; destruct yes; repeat split.
  - intros queryset cj f.
    exists (qs_filter (Q_add (Q_args []) (Q_kw [("total_annotations", VInt 0)]) (connector_of cj))
              queryset).
    assert (Hstep : forall ouf,
      filter_item ouf (connector_of cj) queryset (Q_args []) f =
      {| control := Next queryset
                      (Q_add (Q_args []) (Q_kw [("total_annotations", VInt 0)]) (connector_of cj));
         item := set_value (set_operator f "equal") (VInt 0);
         events := [Called_cast_value (set_value (set_operator f "equal") (VInt 0))] |}).
    { intros ouf.
      rewrite (filter_item_counter ouf (connector_of cj) queryset (Q_args []) f
                 "total_annotations"); [reflexivity| | | |]; simpl; auto. }
    assert (Hrows : rows (qs_filter (Q_add (Q_args []) (Q_kw [("total_annotations", VInt 0)])
                                       (connector_of cj)) queryset) =
                    List.filter (fun t => match get_field t "total_annotations" with
                                          | Some v => sql_eq v (VInt 0)
                                          | None => false
                                          end) (rows queryset)).
    { unfold qs_filter. cbn [rows]. apply List.filter_ext. intros t.
      now rewrite Q_matches_single, lookup_holds_total_annotations. }
    split; [|split].
    + rewrite apply_filters_outcome. simpl items. unfold filter_loop.
      rewrite Hstep. reflexivity.
    + exact Hrows.
    + intros t0 t1 t2 Hr H0 H1 H2. rewrite Hrows, Hr. simpl.
      now rewrite H0, H1, H2.
Qed.

(** ** The special case for empty strings *)

Lemma length_app (a b : string) :
  String.length (a ++ b) = (String.length a + String.length b)%nat.
Proof. induction a as [|c a IH]; simpl; [reflexivity | now rewrite IH]. Qed.

Lemma drop_app (a b : string) : PyStr.drop (String.length a) (a ++ b) = b.
Proof. induction a as [|c a IH]; simpl; [now destruct b | exact IH]. Qed.

Lemma substring_app (a b : string) : String.substring 0 (String.length a) (a ++ b) = a.
Proof.
  induction a as [|c a IH]; simpl; [now destruct b | now rewrite IH].
Qed.

Lemma endswith_app (a suf : string) : PyStr.endswith (a ++ suf) suf = true.
Proof.
  unfold PyStr.endswith. rewrite length_app.
  replace (String.length a + String.length suf - String.length suf)%nat
    with (String.length a) by lia.
  rewrite drop_app, String.eqb_refl, andb_true_r.
  apply Nat.leb_le. lia.
Qed.

Lemma drop_end_app (a suf : string) : PyStr.drop_end (String.length suf) (a ++ suf) = a.
Proof.
  unfold PyStr.drop_end. rewrite length_app.
  replace (String.length a + String.length suf - String.length suf)%nat
    with (String.length a) by lia.
  apply substring_app.
Qed.

Lemma split_lookup_isnull (name : string) :
  split_lookup (name ++ "__isnull") = (name, "isnull").
Proof.
  unfold split_lookup, lookup_names, split_lookup_in.
  change ("__" ++ "isnull") with "__isnull".
  rewrite endswith_app.
  change (2 + String.length "isnull")%nat with (String.length "__isnull").
  now rewrite drop_end_app.
Qed.

Lemma lookup_holds_isnull (t : Task) (name : string) :
  lookup_holds t (name ++ "__isnull") (VBool true) =
  match get_field t name with None => true | Some _ => false end.
Proof.
  unfold lookup_holds. rewrite split_lookup_isnull. simpl.
  now destruct (get_field t name).
Qed.

Lemma lookup_holds_exact (t : Task) (name : string) (rhs : Value) :
  split_lookup name = (name, "exact") ->
  lookup_holds t name rhs =
  match rhs, get_field t name with
  | VNone, Some VNone => true
  | VNone, _ => false
  | _, Some x => sql_eq x rhs
  | _, None => false
  end.
Proof. intros H. unfold lookup_holds. rewrite H. reflexivity. Qed.

#[local] Arguments lookup_holds : simpl never.

Lemma string_empty_q_true (t : Task) (name : string) :
  Q_matches (string_empty_q name true) t =
  (lookup_holds t name (VStr "") || lookup_holds t name VNone
   || lookup_holds t (name ++ "__isnull") (VBool true))%bool.
Proof.
  unfold Q_matches. simpl.
  rewrite is_true_and, !is_true_or, !build_filter_positive, !is_true_lookup_sql.
  simpl. now rewrite orb_false_r, andb_true_r, orb_assoc.
Qed.

Lemma string_empty_q_added (t : Task) (name : string) (empty : bool) conn :
  Q_matches (Q_add (Q_args []) (string_empty_q name empty) conn) t =
  Q_matches (string_empty_q name empty) t.
Proof.
  unfold Q_matches. destruct conn, empty; simpl; try reflexivity;
    match goal with
    | |- is_true (sql_or ?a (Some false)) = _ => destruct a as [[|]|]; reflexivity
    end.
Qed.

(** The three negated lookups of the case empty = false on a row, by what
    the row has in the field. *)
Lemma string_empty_q_not_blank (t : Task) (name : string) :
  split_lookup name = (name, "exact") ->
  Q_matches (string_empty_q name false) t = negb (field_is_blank t name).
Proof.
  intros H. unfold Q_matches. simpl.
  unfold build_filter, lookup_sql, lookup_unknown, lookup_holds, field_is_blank.
  rewrite H, split_lookup_isnull. simpl.
  destruct (PyStr.mem name task_null_attnames);
    destruct (get_field t name) as [[]|]; simpl; try reflexivity;
    now destruct s.
Qed.

Lemma string_empty_q_blank (t : Task) (name : string) :
  split_lookup name = (name, "exact") ->
  Q_matches (string_empty_q name true) t = field_is_blank t name.
Proof.
  intros H. rewrite string_empty_q_true, lookup_holds_isnull.
  rewrite !(lookup_holds_exact _ _ _ H). unfold field_is_blank.
  destruct (get_field t name) as [[]|]; simpl; try reflexivity.
  - now destruct s.
Qed.

Lemma string_empty_q_false (t : Task) (name : string) :
  split_lookup name = (name, "exact") ->
  Q_matches (string_empty_q name false) t = negb (Q_matches (string_empty_q name true) t).
Proof.
  intros H. now rewrite string_empty_q_not_blank, string_empty_q_blank.
Qed.

Lemma is_true_not_and a :
  is_true (sql_not (sql_and a (Some true))) = true -> a = Some false.
Proof. destruct a as [[|]|]; simpl; congruence. Qed.

Lemma lookup_holds_has_field (t : Task) key rhs :
  lookup_holds t key rhs = true ->
  String.eqb (snd (split_lookup key)) "isnull" = false ->
  get_field t (fst (split_lookup key)) <> None.
Proof.
  unfold lookup_holds. destruct (split_lookup key) as [n op]. simpl.
  intros H E. rewrite E in H.
  destruct (String.eqb op "exact"), rhs, (get_field t n) as [[]|]; discriminate.
Qed.

(** A negated comparison is true on a row only if the comparison is not. *)
Lemma build_filter_negated_false (t : Task) key rhs :
  build_filter true t key rhs = Some false -> lookup_holds t key rhs = false.
Proof.
  unfold build_filter. intros H.
  destruct (lookup_holds t key rhs) eqn:Hh; [|reflexivity].
  pose proof (lookup_holds_has_field t key rhs Hh) as Hf.
  unfold lookup_sql in H.
  destruct (lookup_unknown t key rhs) eqn:E.
  { apply lookup_unknown_fails in E. congruence. }
  rewrite Hh in H. destruct (split_lookup key) as [n op]. simpl in Hf.
  destruct (String.eqb op "isnull"); simpl in H; [discriminate|].
  destruct (match rhs with VNone => false | _ => true end && _)%bool; [|discriminate].
  destruct (get_field t n); [discriminate|]. now specialize (Hf eq_refl).
Qed.

(** Whatever the field name is, no row satisfies both the case empty = true
    and the case empty = false. *)
Lemma string_empty_q_disjoint (t : Task) (name : string) :
  Q_matches (string_empty_q name false) t = true ->
  Q_matches (string_empty_q name true) t = false.
Proof.
  rewrite string_empty_q_true. unfold Q_matches. simpl.
  rewrite !is_true_and. simpl. rewrite !andb_true_r, !andb_true_iff.
  intros [Ha [Hb Hc]].
  apply is_true_not_and, build_filter_negated_false in Ha, Hb, Hc.
  now rewrite Ha, Hb, Hc.
Qed.

Lemma filter_item_string_empty ouf conj queryset expr (f : FilterItem) :
  PyStr.startswith (filter f) "filter:tasks:" = true ->
  truthy (value f) = true ->
  type f = "String" \/ type f = "Unknown" ->
  operator f = "empty" ->
  PyStr.mem (fst (fst (resolve_field ouf queryset f))) counters = false ->
  filter_item ouf conj queryset expr f =
  {| control :=
       Next queryset
         (Q_add expr
            (string_empty_q (fst (fst (resolve_field ouf queryset f)))
               (truthy (cast_bool_from_str (value f)))) conj);
     item := f; events := [] |}.
Proof.
  intros Hp Hv Ht Hop Hc. unfold filter_item, skipped. rewrite Hp, Hv. simpl.
  assert (Hr : resolve_field ouf queryset f =
               (fst (fst (resolve_field ouf queryset f)), queryset,
                fst (fst (resolve_field ouf queryset f)))).
  { unfold resolve_field.
    assert (Hn : String.eqb (type f) "Number" = false)
      by (destruct Ht as [-> | ->]; reflexivity).
    rewrite Hn. reflexivity. }
  rewrite Hr. simpl fst in *.
  unfold counter_special_case. rewrite Hc. simpl.
  rewrite Hop. destruct Ht as [Ht | Ht]; rewrite Ht; reflexivity.
Qed.

(** C2, amended: for a filter item of type "String" or "Unknown" with the
    operator "empty" that is not passed over (routing prefix, truthy value)
    and whose field is not one of the three counters, the loop adds
    [string_empty_q]: when the value coerces to true, the disjunction of
    field = "", field = None and field__isnull = True, whatever the
    conjunction of the filters, and when it coerces to false the conjunction
    of their negations, which no row satisfies together with the disjunction.
    When the field name does not itself end in a lookup name, the second
    holds exactly where the first does not, also with the comparison with ""
    unknown on a row whose field is null or missing, one of the two tests for
    null being true there; and the rows [apply_filters] returns for this item
    alone are those whose field is the empty string, null or not set,
    respectively all the others. *)
Theorem C2_string_empty_is_blank_or_its_complement :
  forall queryset cj (f : FilterItem),
    let ouf := sample_only_undefined_field queryset in
    let name := fst (fst (resolve_field ouf queryset f)) in
    let yes := truthy (cast_bool_from_str (value f)) in
    PyStr.startswith (filter f) "filter:tasks:" = true ->
    truthy (value f) = true ->
    type f = "String" \/ type f = "Unknown" ->
    operator f = "empty" ->
    PyStr.mem name counters = false ->
    (forall conj expr,
        filter_item ouf conj queryset expr f =
        {| control := Next queryset (Q_add expr (string_empty_q name yes) conj);
           item := f; events := [] |}) /\
    (forall t,
        Q_matches (string_empty_q name true) t =
        (lookup_holds t name (VStr "") || lookup_holds t name VNone
         || lookup_holds t (name ++ "__isnull") (VBool true))%bool) /\
    ((forall t,
         Q_matches (string_empty_q name false) t = true ->
         Q_matches (string_empty_q name true) t = false) /\
     (split_lookup name = (name, "exact") ->
      forall t,
        Q_matches (string_empty_q name false) t =
        negb (Q_matches (string_empty_q name true) t))) /\
    (split_lookup name = (name, "exact") ->
     exists queryset',
       outcome (apply_filters queryset (Some {| conjunction := cj; items := [f] |}))
       = Returned queryset' /\
       rows queryset' =
         List.filter (fun t => if yes then field_is_blank t name
                               else negb (field_is_blank t name)) (rows queryset)).
Proof.
  intros queryset cj f ouf name yes Hp Hv Ht Hop Hc.
  assert (Hstep : forall conj expr,
        filter_item ouf conj queryset expr f =
        {| control := Next queryset (Q_add expr (string_empty_q name yes) conj);
           item := f; events := [] |})
    by (intros; now apply filter_item_string_empty).
  split; [exact Hstep|].
  split; [intros t; apply string_empty_q_true|].
  split; [split; [intros t; apply string_empty_q_disjoint
                 | intros Hname t; now apply string_empty_q_false]|].
  intros Hname.
  exists (qs_filter (Q_add (Q_args []) (string_empty_q name yes) (connector_of cj)) queryset).
  split.
  - rewrite apply_filters_outcome. cbn [items conjunction]. unfold filter_loop.
    fold ouf. rewrite Hstep. reflexivity.
  - unfold qs_filter. cbn [rows]. apply List.filter_ext. intros t.
    rewrite string_empty_q_added. destruct yes.
    + now apply string_empty_q_blank.
    + now apply string_empty_q_not_blank.
Qed.

(** ** Ordering *)

Lemma insert_by_perm le x (l : list Task) : Permutation (insert_by le x l) (x :: l).
Proof.
  induction l as [|y l IH]; simpl; [reflexivity|].
  destruct (le x y); [reflexivity|].
  rewrite IH. apply perm_swap.
Qed.

Lemma sort_by_perm le (l : list Task) : Permutation (sort_by le l) l.
Proof.
  induction l as [|x l IH]; simpl; [reflexivity|].
  fold (sort_by le l). rewrite insert_by_perm. now constructor.
Qed.

Section NullsLast.
Variable key : Task -> option Value.
Variable ascending : bool.

Let le (a b : Task) : bool := nulls_last_leb ascending (key a) (key b).

Lemma insert_by_nulls_last x (l : list Task) :
  nulls_last key l -> nulls_last key (insert_by le x l).
Proof.
  induction l as [|y l IH]; intros Hl; simpl.
  - split; [constructor | exact I].
  - destruct (le x y) eqn:E.
    + split; [|exact Hl]. intros Hx. unfold le in E. rewrite Hx in E.
      destruct (key y) eqn:Ky; [discriminate|].
      constructor; [exact Ky|]. now apply (proj1 Hl).
    + destruct Hl as [Hy Hl]. split; [|now apply IH].
      intros Ky. unfold le in E. rewrite Ky in E. now destruct (key x).
Qed.

Lemma sort_by_nulls_last (l : list Task) : nulls_last key (sort_by le l).
Proof.
  induction l as [|x l IH]; simpl; [exact I|].
  now apply insert_by_nulls_last.
Qed.

End NullsLast.

Lemma insert_by_sorted le x (l : list Task) :
  (forall a b, le a b = false -> le b a = true) ->
  Sorted (fun a b => le a b = true) l ->
  Sorted (fun a b => le a b = true) (insert_by le x l).
Proof.
  intros Htot. induction l as [|y l IH]; intros Hs; simpl.
  - repeat constructor.
  - destruct (le x y) eqn:E.
    + constructor; [exact Hs | now constructor].
    + inversion Hs as [|? ? Hs' Hhd]; subst.
      constructor; [now apply IH|].
      destruct l as [|z l]; simpl.
      * constructor. now apply Htot.
      * destruct (le x z); constructor; [now apply Htot | now inversion Hhd].
Qed.

Lemma sort_by_sorted le (l : list Task) :
  (forall a b, le a b = false -> le b a = true) ->
  Sorted (fun a b => le a b = true) (sort_by le l).
Proof.
  intros Htot. induction l as [|x l IH]; simpl; [constructor|].
  now apply insert_by_sorted.
Qed.

Lemma assoc_filter_out name (l : list (string * Value)) :
  assoc name (List.filter (fun kv => negb (String.eqb (fst kv) name)) l) = None.
Proof.
  induction l as [|[k v] l IH]; simpl; [reflexivity|].
  destruct (String.eqb k name) eqn:E; simpl; [exact IH|].
  rewrite String.eqb_sym, E. exact IH.
Qed.

Lemma get_ordering_field v (t : Task) :
  get_field (set_column "ordering_field" v t) "ordering_field" = v.
Proof.
  unfold get_field. simpl. destruct v; [reflexivity|]. apply assoc_filter_out.
Qed.

Lemma order_key_ordering_field key (t : Task) :
  order_key "ordering_field" (set_column "ordering_field" (KeyTextTransform key t) t) =
  match KeyTextTransform key (set_column "ordering_field" (KeyTextTransform key t) t) with
  | Some VNone | None => None
  | Some v => Some v
  end.
Proof. unfold order_key. rewrite get_ordering_field. reflexivity. Qed.

Lemma map_id_set_column name expr (l : list Task) :
  map id (map (fun t => set_column name (expr t) t) l) = map id l.
Proof. rewrite map_map. reflexivity. Qed.

Lemma value_leb_total :
  (forall a b, db_leb a b = false -> db_leb b a = true) ->
  forall a b, value_leb a b = false -> value_leb b a = true.
Proof.
  intros Htot a b. destruct a, b; simpl; try apply Htot.
  intros H. apply Z.leb_le. apply Z.leb_gt in H. lia.
Qed.

Lemma nulls_last_leb_total ascending :
  (forall a b, db_leb a b = false -> db_leb b a = true) ->
  forall x y, nulls_last_leb ascending x y = false -> nulls_last_leb ascending y x = true.
Proof.
  intros Htot x y. destruct x as [a|], y as [b|]; simpl; try discriminate; auto.
  destruct ascending; now apply value_leb_total.
Qed.

(** C6, amended: [apply_ordering] looks at the first ordering key only.  For
    a first key that names a field, it returns the same rows, ordered so that
    no row with a null sort key precedes one with a sort key that is not
    null, ascending and descending alike; where the storage engine compares
    any two values one way or the other, each row is followed by one whose
    sort key is not smaller when the key has no "-" in front, and not larger
    when it has.  When the field is a path into [data], the sort key of a row
    is the text of that key of its data, and null for a row without the key.
    For an empty ordering the rows come back in ascending order of their
    id. *)
Theorem C6_first_key_nulls_last_default_id :
  (forall queryset o rest, apply_ordering queryset (o :: rest) = apply_ordering queryset [o]) /\
  (forall queryset o rest c r,
      PyStr.replace o "tasks:" "" = String c r ->
      let ascending := negb (Ascii.eqb c "-") in
      let field_name := if Ascii.eqb c "-" then r else String c r in
      let name := if PyStr.contains field_name "data." then "ordering_field" else field_name in
      exists queryset',
        apply_ordering queryset (o :: rest) = inr queryset' /\
        Permutation (map id (rows queryset')) (map id (rows queryset)) /\
        nulls_last (order_key name) (rows queryset') /\
        ((forall a b, db_leb a b = false -> db_leb b a = true) ->
         Sorted (fun a b =>
                   nulls_last_leb ascending (order_key name a) (order_key name b) = true)
           (rows queryset')) /\
        (PyStr.contains field_name "data." = true ->
         forall t, In t (rows queryset') ->
           (assoc (ordering_json_field queryset field_name) (data t) = None ->
            order_key name t = None) /\
           order_key name t =
             match KeyTextTransform (ordering_json_field queryset field_name) t with
             | Some VNone | None => None
             | Some v => Some v
             end)) /\
  (forall queryset,
      exists queryset',
        apply_ordering queryset [] = inr queryset' /\
        Permutation (rows queryset') (rows queryset) /\
        Sorted (fun a b => id a <= id b) (rows queryset')).
Proof.
  split; [reflexivity|]. split.
  - intros queryset o rest c r Ho ascending field_name name.
    unfold apply_ordering. rewrite Ho. fold field_name. fold ascending. unfold name.
    destruct (PyStr.contains field_name "data.") eqn:Hc.
    + eexists. split; [reflexivity|]. split; [|split; [|split]].
      * unfold qs_order_by, qs_annotate. cbn [rows].
        rewrite (Permutation_map id (sort_by_perm _ _)).
        now rewrite map_id_set_column.
      * unfold qs_order_by. cbn [rows]. apply sort_by_nulls_last.
      * intros Htot. unfold qs_order_by. cbn [rows].
        apply (sort_by_sorted
                 (fun a b => nulls_last_leb ascending (order_key "ordering_field" a)
                               (order_key "ordering_field" b))).
        intros a b. now apply nulls_last_leb_total.
      * intros _ t Ht. unfold qs_order_by, qs_annotate in Ht. cbn [rows] in Ht.
        apply (Permutation_in _ (sort_by_perm _ _)) in Ht.
        apply in_map_iff in Ht. destruct Ht as [t0 [<- _]].
        rewrite order_key_ordering_field. split; [|reflexivity].
        intros Hk. unfold KeyTextTransform. simpl data in *. now rewrite Hk.
    + eexists. split; [reflexivity|]. split; [|split; [|split]].
      * unfold qs_order_by. cbn [rows]. apply Permutation_map, sort_by_perm.
      * unfold qs_order_by. cbn [rows]. apply sort_by_nulls_last.
      * intros Htot. unfold qs_order_by. cbn [rows].
        apply (sort_by_sorted
                 (fun a b => nulls_last_leb ascending (order_key field_name a)
                               (order_key field_name b))).
        intros a b. now apply nulls_last_leb_total.
      * discriminate.
  - intros queryset. eexists. split; [reflexivity|]. split.
    + unfold qs_order_by. cbn [rows]. apply sort_by_perm.
    + unfold qs_order_by. cbn [rows].
      assert (Hs := sort_by_sorted
                (fun a b => nulls_last_leb true (order_key "id" a) (order_key "id" b))
                (rows queryset)).
      assert (Hle : forall a b,
                 nulls_last_leb true (order_key "id" a) (order_key "id" b) = (id a <=? id b))
        by reflexivity.
      eapply Sorted_ind with (P := fun l => Sorted (fun a b => id a <= id b) l);
        [constructor | | apply Hs].
      * intros a l _ IH Hhd. constructor; [exact IH|].
        destruct Hhd as [|b l' Hab]; constructor.
        rewrite Hle in Hab. now apply Z.leb_le.
      * intros a b Hab. rewrite Hle in *. apply Z.leb_le. apply Z.leb_gt in Hab. lia.
Qed.

(** ** The fields handed to the registry of computed columns *)

Lemma mem_In x (l : list string) : PyStr.mem x l = true <-> In x l.
Proof.
  unfold PyStr.mem. rewrite existsb_exists. split.
  - intros [y [Hy E]]. apply String.eqb_eq in E. now subst.
  - intros H. exists x. split; [exact H | apply String.eqb_refl].
Qed.

Lemma evaluate_fields_called m (fields : list string) queryset :
  (exists rest, fields = snd (evaluate_fields m fields queryset) ++ rest)%list /\
  (Forall (fun x => annotations_map_get m x <> None) fields ->
   snd (evaluate_fields m fields queryset) = fields /\
   exists queryset', fst (evaluate_fields m fields queryset) = inr queryset').
Proof.
  revert queryset. induction fields as [|x fields IH]; intros queryset; simpl.
  - split; [now exists [] | intros _; split; [reflexivity | now exists queryset]].
  - destruct (annotations_map_get m x) as [fn|] eqn:E.
    + destruct (IH (fn queryset)) as [[rest Hrest] Hall].
      destruct (evaluate_fields m fields (fn queryset)) as [r called]. simpl in *.
      split.
      * exists rest. now f_equal.
      * intros HF. apply Forall_inv_tail in HF.
        destruct (Hall HF) as [Hc Hq]. split; [now f_equal | exact Hq].
    + split; [now exists (x :: fields)|].
      intros HF. apply Forall_inv in HF. congruence.
Qed.

Lemma manager_all_called table m (prepare_params : PrepareParams) :
  snd (manager_all table m prepare_params) =
  snd (get_queryset table m (Some (get_fields_for_annotation prepare_params))).
Proof.
  unfold manager_all.
  now destruct (get_queryset table m (Some (get_fields_for_annotation prepare_params)))
    as [[e|q] called].
Qed.

(** The names [get_fields_for_annotation] returns. *)
Lemma get_fields_for_annotation_In (prepare_params : PrepareParams) x :
  In x (get_fields_for_annotation prepare_params) <->
  ((exists o rest, ordering prepare_params = o :: rest /\
                   x = PyStr.replace (PyStr.replace o "tasks:" "") "-" "") \/
   (exists fs f, filters prepare_params = Some fs /\ In f (items fs) /\
                 x = PyStr.replace (filter f) "filter:tasks:" "")) /\
  ~ In x task_attnames /\ x <> "id" /\ PyStr.startswith x "data." = false.
Proof.
  set (pp := prepare_params).
  unfold get_fields_for_annotation.
  rewrite !filter_In, !negb_true_iff. unfold py_set. rewrite nodup_In.
  assert (Hmem : PyStr.mem x (task_attnames ++ ["id"]) = false <->
                 ~ In x task_attnames /\ x <> "id").
  { rewrite <- Bool.not_true_iff_false, mem_In, in_app_iff. simpl.
    split; [intros H; split; intros H'; apply H; auto|].
    intros [H1 H2] [H|[H|[]]]; [now apply H1 | now apply H2]. }
  rewrite Hmem.
  assert (Hcand :
    In x (match filters pp with
          | Some fs =>
              (match ordering pp with
               | [] => []
               | o :: _ => [PyStr.replace (PyStr.replace o "tasks:" "") "-" ""]
               end ++ map (fun _filter => PyStr.replace (filter _filter) "filter:tasks:" "")
                        (items fs))%list
          | None =>
              match ordering pp with
              | [] => []
              | o :: _ => [PyStr.replace (PyStr.replace o "tasks:" "") "-" ""]
              end
          end) <->
    ((exists o rest, ordering pp = o :: rest /\
                     x = PyStr.replace (PyStr.replace o "tasks:" "") "-" "") \/
     (exists fs f, filters pp = Some fs /\ In f (items fs) /\
                   x = PyStr.replace (filter f) "filter:tasks:" ""))).
  { assert (Ho : In x (match ordering pp with
                       | [] => []
                       | o :: _ => [PyStr.replace (PyStr.replace o "tasks:" "") "-" ""]
                       end) <->
                 exists o rest, ordering pp = o :: rest /\
                                x = PyStr.replace (PyStr.replace o "tasks:" "") "-" "").
    { destruct (ordering pp) as [|o rest]; simpl.
      - split; [tauto | intros [o [rest [H _]]]; discriminate].
      - split.
        + intros [H|[]]. exists o, rest. now split.
        + intros [o' [rest' [H ->]]]. inversion H; subst. now left. }
    destruct (filters pp) as [fs|].
    - rewrite in_app_iff, Ho, in_map_iff. split.
      + intros [H|[f [Hx Hf]]]; [now left|]. right. exists fs, f. now repeat split.
      + intros [H|[fs' [f [Hfs [Hf Hx]]]]]; [now left|]. right.
        inversion Hfs; subst. exists f. now split.
    - rewrite Ho. split; [now left|].
      intros [H|[fs [f [H _]]]]; [exact H | discriminate]. }
  rewrite Hcand. tauto.
Qed.

Lemma prefix_hyphen c (s : string) :
  String.prefix "-" (String c s) = Ascii.eqb c "-".
Proof.
  cbn [String.prefix].
  destruct (ascii_dec "-" c) as [<-|Hn]; [now destruct s|].
  symmetry. apply Ascii.eqb_neq. congruence.
Qed.

(** [s.replace("-", "")] takes every "-" out of [s]. *)
Lemma replace_hyphen_cons c (s : string) :
  PyStr.replace (String c s) "-" "" =
  if Ascii.eqb c "-" then PyStr.replace s "-" "" else String c (PyStr.replace s "-" "").
Proof.
  unfold PyStr.replace. cbn [PyStr.replace_from]. rewrite prefix_hyphen.
  now destruct (Ascii.eqb c "-").
Qed.

Lemma replace_hyphen_none (s : string) :
  PyStr.contains (PyStr.replace s "-" "") "-" = false.
Proof.
  induction s as [|c s IH]; [reflexivity|].
  rewrite replace_hyphen_cons. destruct (Ascii.eqb c "-") eqn:E; [exact IH|].
  cbn [PyStr.contains]. now rewrite prefix_hyphen, E, IH.
Qed.

Lemma replace_hyphen_changes (s : string) :
  PyStr.contains s "-" = true -> PyStr.replace s "-" "" <> s.
Proof.
  intros H E. rewrite <- E in H. now rewrite replace_hyphen_none in H.
Qed.

(** C9: for the ordering the name handed to the registry is the first key
    without "tasks:" and without any "-", where [apply_ordering] orders by
    the key without "tasks:" and without the "-" in front only: the name
    handed over is the field ordered by with every "-" taken out, and is
    another name whenever that field has a "-" in it.  For the ordering
    "tasks:my-col" the name handed over is "mycol" and the field ordered by
    is "my-col": the annotator registered for "my-col" is not called, and
    [all] leaves with KeyError for "mycol". *)
Theorem C9_ordering_field_loses_inner_hyphens :
  (forall (prepare_params : PrepareParams) o rest c r,
      ordering prepare_params = o :: rest ->
      PyStr.replace o "tasks:" "" = String c r ->
      let field := if Ascii.eqb c "-" then r else String c r in
      let handed := PyStr.replace field "-" "" in
      (forall queryset,
          PyStr.contains field "data." = false ->
          apply_ordering queryset (ordering prepare_params)
          = inr (qs_order_by field (negb (Ascii.eqb c "-")) queryset)) /\
      (forall x,
          In x (get_fields_for_annotation prepare_params) ->
          x = handed \/
          exists fs f, filters prepare_params = Some fs /\ In f (items fs) /\
                       x = PyStr.replace (filter f) "filter:tasks:" "") /\
      (PyStr.contains field "-" = true -> handed <> field)) /\
  (forall table (annotations_map : AnnotationsMap) function,
      ~ In "mycol" task_attnames ->
      annotations_map_get annotations_map "my-col" = Some function ->
      annotations_map_get annotations_map "mycol" = None ->
      let prepare_params :=
        {| pp_project := None; ordering := ["tasks:my-col"];
           filters := None; selectedItems := None |} in
      get_fields_for_annotation prepare_params = ["mycol"] /\
      (forall queryset,
          apply_ordering queryset (ordering prepare_params)
          = inr (qs_order_by "my-col" true queryset)) /\
      prepared_outcome (fst (manager_all table annotations_map prepare_params))
      = Raised (KeyError "mycol") /\
      snd (manager_all table annotations_map prepare_params) = []).
Proof.
  split.
  - intros pp o rest c r Ho Hr field handed. split; [|split].
    + intros queryset Hd. rewrite Ho. unfold apply_ordering. rewrite Hr.
      fold field. now rewrite Hd.
    + intros x Hx. apply get_fields_for_annotation_In in Hx.
      destruct Hx as [[[o' [rest' [Ho' ->]]] | Hf] _]; [left | now right].
      rewrite Ho in Ho'. inversion Ho'; subst o' rest'. rewrite Hr.
      unfold handed, field. rewrite replace_hyphen_cons.
      destruct (Ascii.eqb c "-") eqn:E; [reflexivity|].
      now rewrite replace_hyphen_cons, E.
    + apply replace_hyphen_changes.
  - intros table m function Hn Hr Hm prepare_params.
    assert (Hf : get_fields_for_annotation prepare_params = ["mycol"]).
    { unfold get_fields_for_annotation, prepare_params. cbn [ordering filters].
      change (PyStr.replace (PyStr.replace "tasks:my-col" "tasks:" "") "-" "") with "mycol".
      assert (E : PyStr.mem "mycol" (task_attnames ++ ["id"]) = false).
      { apply Bool.not_true_iff_false. rewrite mem_In, in_app_iff.
        intros [H|[H|[]]]; [now apply Hn | discriminate]. }
      unfold py_set. simpl. now rewrite E. }
    split; [exact Hf|]. split; [reflexivity|].
    unfold manager_all. rewrite Hf. unfold get_queryset. cbn [evaluate_fields].
    rewrite Hm. split; reflexivity.
Qed.

End Proofs.

Lemma C4_witness :
  Forall (fun f => PyStr.startswith (filter f) "filter:tasks:" = false
                   \/ truthy (value f) = false)
    [demo_item "filter:tasks:data.text" "equal" "String" (VStr "");
     demo_item "filter:annotations:result" "contains" "String" (VStr "cat")] /\
  outcome (apply_filters demo_queryset
             (Some {| conjunction := ConjunctionEnum_OR;
                      items := [demo_item "filter:tasks:data.text" "equal" "String" (VStr "");
                                demo_item "filter:annotations:result" "contains" "String"
                                  (VStr "cat")] |})) =
  Returned demo_queryset.
Proof.
  assert (H : Forall (fun f => PyStr.startswith (filter f) "filter:tasks:" = false
                   \/ truthy (value f) = false)
    [demo_item "filter:tasks:data.text" "equal" "String" (VStr "");
     demo_item "filter:annotations:result" "contains" "String" (VStr "cat")]).
  { constructor; [right; reflexivity|].
    constructor; [left; reflexivity|]. constructor. }
  split; [exact H|].
  exact (proj1 (proj2 (proj2 C4_skipped_items_add_no_predicate)) demo_queryset
           {| conjunction := ConjunctionEnum_OR;
              items := [demo_item "filter:tasks:data.text" "equal" "String" (VStr "");
                        demo_item "filter:annotations:result" "contains" "String"
                          (VStr "cat")] |} H).
Defined.

Lemma C10_witness :
  returned_ids
    (prepared_outcome
       (prepared demo_queryset
          (with_selection (demo_params [])
             (Some {| all := false; included := []; excluded := [2] |})))) =
  Some [1; 2; 3].
Proof.
  rewrite (proj1 (C10_empty_id_list_restricts_nothing demo_queryset (demo_params []) [2])).
  reflexivity.
Defined.

(** C5 as stated fails: with [all] false and an empty included list the
    three tasks are all returned, none of them being in the included list. *)
Lemma C5_counterexample :
  returned_ids
    (prepared_outcome
       (prepared demo_queryset
          (with_selection (demo_params [])
             (Some {| all := false; included := []; excluded := [] |})))) =
  Some [1; 2; 3].
Proof. reflexivity. Qed.

Lemma C5_witness :
  [2; 3] <> [] /\
  map id (rows (select_items demo_queryset
                  (Some {| all := false; included := [2; 3]; excluded := [] |}))) =
  [2; 3].
Proof.
  split; [discriminate|].
  rewrite (proj1 (proj2 (proj2 (C5_selection_applied_last demo_queryset (demo_params []) None)))
             demo_queryset [2; 3] []); [reflexivity | discriminate].
Defined.

(** C7 as stated fails: the build turns the operator "empty" of a filter on
    a counter into "equal" and its value "true" into 0.  The change stays: a
    second build with the same filters passes the item over, its value 0
    being falsy, and returns all three tasks where the first returned one. *)
Lemma C7_counterexample :
  let before := demo_params [demo_item "filter:tasks:total_annotations" "empty" "Boolean"
                               (VStr "true")] in
  let first := prepared demo_queryset before in
  let second := prepared demo_queryset (params_after first) in
  option_map items (filters (params_after first)) =
  Some [demo_item "filter:tasks:total_annotations" "equal" "Boolean" (VInt 0)] /\
  returned_ids (prepared_outcome first) = Some [1] /\
  returned_ids (prepared_outcome second) = Some [1; 2; 3].
Proof. repeat split. Qed.

(** C3 as stated fails: a filter on a number whose value does not parse,
    placed before the filter with the broken pattern, makes [apply_filters]
    leave with ValueError. *)
Lemma C3_counterexample :
  re_compile (py_str (VStr "[")) <> None /\
  outcome (apply_filters demo_queryset
             (Some {| conjunction := ConjunctionEnum_AND;
                      items := [demo_item "filter:tasks:total_annotations" "equal" "Number"
                                  (VStr "abc");
                                demo_item "filter:tasks:data.text" "regex" "String"
                                  (VStr "[")] |}))
  = Raised ValueError.
Proof. split; [discriminate | reflexivity]. Qed.

Lemma C3_witness :
  exists queryset',
    outcome (apply_filters demo_queryset
               (Some {| conjunction := ConjunctionEnum_AND;
                        items := [] ++ demo_item "filter:tasks:data.text" "regex" "String"
                                         (VStr "[") :: [] |}))
    = Returned queryset' /\
    rows queryset' = [] /\
    trace (apply_filters demo_queryset
             (Some {| conjunction := ConjunctionEnum_AND;
                      items := [] ++ demo_item "filter:tasks:data.text" "regex" "String"
                                       (VStr "[") :: [] |}))
    = ([] ++ [Logged_info (VStr "[") "unterminated character set"])%list.
Proof.
  apply (C3_bad_regex_returns_empty_set demo_queryset ConjunctionEnum_AND []
           (demo_item "filter:tasks:data.text" "regex" "String" (VStr "[")) []
           demo_queryset (Q_args []) [] [] "unterminated character set");
    reflexivity.
Defined.



(** C1 as stated fails: the empty string coerces to false, and so does the
    boolean false, yet a filter on a counter with operator "empty" and such a
    value is passed over: it keeps its operator and value, and all three
    tasks are returned. *)
Lemma C1_counterexample :
  let f := demo_item "filter:tasks:total_annotations" "empty" "Boolean" (VStr "") in
  let g := demo_item "filter:tasks:total_annotations" "empty" "Boolean" (VBool false) in
  truthy (cast_bool_from_str (value f)) = false /\
  truthy (cast_bool_from_str (value g)) = false /\
  filters_after (apply_filters demo_queryset
                   (Some {| conjunction := ConjunctionEnum_AND; items := [f; g] |}))
  = Some {| conjunction := ConjunctionEnum_AND; items := [f; g] |} /\
  returned_ids (outcome (apply_filters demo_queryset
                           (Some {| conjunction := ConjunctionEnum_AND; items := [f; g] |})))
  = Some [1; 2; 3].
Proof. repeat split. Qed.

Lemma C1_witness :
  let f := demo_item "filter:tasks:total_annotations" "empty" "Boolean" (VStr "false") in
  In "total_annotations" counters /\
  truthy (value f) = true /\
  operator (item (filter_item false Q_AND demo_queryset (Q_args []) f)) = "not_equal" /\
  value (item (filter_item false Q_AND demo_queryset (Q_args []) f)) = VInt 0.
Proof.
  split; [simpl; auto|]. split; [reflexivity|].
  pose proof (proj1 C1_counter_empty_becomes_equal_zero false Q_AND demo_queryset (Q_args [])
                (demo_item "filter:tasks:total_annotations" "empty" "Boolean" (VStr "false"))
                "total_annotations" (or_intror (or_introl eq_refl)) eq_refl eq_refl eq_refl)
    as H.
  destruct H as [_ [_ [Hop [Hval _]]]]. split; [exact Hop | exact Hval].
Defined.

(** C2 as stated fails twice.  A filter of type "String" with the operator
    "empty" on a counter is caught by the counter special case first: it
    returns the task without annotations, although no task has an empty, null
    or missing total_annotations.  And such a filter on data.text with the
    value false is passed over: all three tasks are returned, not only the
    one whose text is not blank. *)
Lemma C2_counterexample :
  returned_ids
    (outcome (apply_filters demo_queryset
                (Some {| conjunction := ConjunctionEnum_AND;
                         items := [demo_item "filter:tasks:total_annotations" "empty" "String"
                                     (VStr "true")] |})))
  = Some [1] /\
  map id (List.filter (fun t => field_is_blank t "total_annotations") (rows demo_queryset))
  = [] /\
  truthy (cast_bool_from_str (VBool false)) = false /\
  returned_ids
    (outcome (apply_filters demo_queryset
                (Some {| conjunction := ConjunctionEnum_AND;
                         items := [demo_item "filter:tasks:data.text" "empty" "String"
                                     (VBool false)] |})))
  = Some [1; 2; 3] /\
  map id (List.filter (fun t => negb (field_is_blank t "data__text")) (rows demo_queryset))
  = [2].
Proof. repeat split. Qed.

Lemma C2_witness :
  let f := demo_item "filter:tasks:data.text" "empty" "String" (VStr "false") in
  (exists queryset',
     outcome (apply_filters demo_queryset
                (Some {| conjunction := ConjunctionEnum_OR; items := [f] |}))
     = Returned queryset' /\
     map id (rows queryset') = [2]) /\
  split_lookup "data__text" = ("data__text", "exact") /\
  forall t,
    Q_matches (string_empty_q "data__text" false) t =
    negb (Q_matches (string_empty_q "data__text" true) t).
Proof.
  intros f.
  pose proof (C2_string_empty_is_blank_or_its_complement demo_queryset ConjunctionEnum_OR f
                eq_refl eq_refl (or_introl eq_refl) eq_refl eq_refl) as H.
  split; [|split; [reflexivity|]].
  - destruct (proj2 (proj2 (proj2 H)) eq_refl) as [q [Ho Hr]].
    exists q. split; [exact Ho|]. rewrite Hr. reflexivity.
  - exact (proj2 (proj1 (proj2 (proj2 H))) eq_refl).
Defined.

(** The demo store compares any two values one way or the other. *)
Lemma demo_db_leb_total (a b : Value) : db_leb a b = false -> db_leb b a = true.
Proof.
  destruct a, b; simpl; try discriminate.
  intros H. destruct (String.leb_total s s0) as [E|E]; [congruence | exact E].
Qed.

(** C6 as stated fails: an ordering key that is "tasks:" alone, or empty,
    names no field, and [apply_ordering] leaves with IndexError where it
    reads the first character of the name. *)
Lemma C6_counterexample :
  apply_ordering demo_queryset ["tasks:"] = inl IndexError /\
  apply_ordering demo_queryset [""; "tasks:id"] = inl IndexError.
Proof. split; reflexivity. Qed.

Lemma C6_witness :
  PyStr.replace "tasks:-data.text" "tasks:" "" = String "-" "data.text" /\
  (forall a b : Value, db_leb a b = false -> db_leb b a = true) /\
  exists queryset',
    apply_ordering demo_queryset ["tasks:-data.text"; "tasks:id"] = inr queryset' /\
    map id (rows queryset') = [2; 1; 3] /\
    nulls_last (order_key "ordering_field") (rows queryset') /\
    Sorted (fun a b =>
              nulls_last_leb false (order_key "ordering_field" a)
                (order_key "ordering_field" b) = true) (rows queryset').
Proof.
  split; [reflexivity|]. split; [exact demo_db_leb_total|].
  destruct (proj1 (proj2 C6_first_key_nulls_last_default_id) demo_queryset
              "tasks:-data.text" ["tasks:id"] "-"%char "data.text" eq_refl)
    as [q [Hq [_ [Hn [Hs _]]]]].
  exists q. split; [exact Hq|]. split; [|split; [exact Hn | exact (Hs demo_db_leb_total)]].
  assert (Hid : forall q', apply_ordering demo_queryset ["tasks:-data.text"; "tasks:id"]
                           = inr q' -> map id (rows q') = [2; 1; 3]).
  { intros q' H. injection H as <-. vm_compute. reflexivity. }
  exact (Hid q Hq).
Defined.

Lemma C9_witness :
  let annotations_map :=
    update_annotation_map DATA_MANAGER_ANNOTATIONS_MAP [("my-col", dummy)] in
  let prepare_params :=
    {| pp_project := None; ordering := ["tasks:my-col"];
       filters := None; selectedItems := None |} in
  ~ In "mycol" task_attnames /\
  annotations_map_get annotations_map "my-col" = Some dummy /\
  annotations_map_get annotations_map "mycol" = None /\
  get_fields_for_annotation prepare_params = ["mycol"] /\
  prepared_outcome (fst (manager_all demo_table annotations_map prepare_params))
  = Raised (KeyError "mycol") /\
  PyStr.replace "tasks:my-col" "tasks:" "" = "my-col" /\
  PyStr.contains "my-col" "-" = true /\
  PyStr.replace "my-col" "-" "" <> "my-col".
Proof.
  intros annotations_map prepare_params.
  assert (Hn : ~ In "mycol" task_attnames).
  { simpl. intros H. repeat (destruct H as [H|H]; [discriminate|]). exact H. }
  split; [exact Hn|]. split; [reflexivity|]. split; [reflexivity|].
  destruct (proj2 C9_ordering_field_loses_inner_hyphens demo_table annotations_map dummy Hn
              eq_refl eq_refl) as [Hf [_ [Hk _]]].
  split; [exact Hf|]. split; [exact Hk|]. split; [reflexivity|]. split; [reflexivity|].
  exact (proj2 (proj2 (proj1 C9_ordering_field_loses_inner_hyphens prepare_params
                         "tasks:my-col" [] "m"%char "y-col" eq_refl eq_refl)) eq_refl).
Defined.

Lemma C7_witness :
  let before := demo_params [demo_item "filter:tasks:total_annotations" "empty" "Boolean"
                               (VStr "true");
                             demo_item "filter:tasks:data.text" "equal" "String" (VStr "")] in
  skipped (demo_item "filter:tasks:data.text" "equal" "String" (VStr "")) = true /\
  ordering (params_after (prepared demo_queryset before)) = ordering before /\
  selectedItems (params_after (prepared demo_queryset before)) = selectedItems before.
Proof.
  intros before. split; [reflexivity|].
  destruct (C7_build_writes_operator_and_value_only demo_queryset before)
    as [_ [Ho [Hs _]]].
  split; [exact Ho | exact Hs].
Defined.

(** * Further properties of managers.py *)

Section More.
Context `{T : PyTypes} `{L : @PyLib T} `{B : @Backend T}.

(** ** The registry of computed columns *)

(** X1: after [update_annotation_map], a name that [obj] defines is bound to
    the function of [obj], and every other name keeps the function it had. *)
Theorem X1_update_annotation_map_lookup :
  forall (m obj : AnnotationsMap) (field : string),
    annotations_map_get (update_annotation_map m obj) field =
    match annotations_map_get obj field with
    | Some function => Some function
    | None => annotations_map_get m field
    end.
Proof.
  intros m obj field. unfold update_annotation_map.
  induction obj as [|[k fn] obj IH]; simpl; [reflexivity|].
  destruct (String.eqb field k); [reflexivity | exact IH].
Qed.

(** X2: when the fields to evaluate are [pre ++ x :: post], every name of
    [pre] is registered and [x] is not, [get_queryset] raises KeyError for
    [x] after having called the annotators of [pre], in order, and none of
    [post]. *)
Theorem X2_get_queryset_unregistered_field :
  forall table (m : AnnotationsMap) pre x post,
    Forall (fun f => annotations_map_get m f <> None) pre ->
    annotations_map_get m x = None ->
    get_queryset table m (Some (pre ++ x :: post)%list) = (inl (KeyError x), pre).
Proof.
  intros table m pre x post Hpre Hx. unfold get_queryset.
  generalize (qs_annotate "total_predictions"
       (fun t => Some (VInt (Z.of_nat (List.length (predictions t)))))
       (qs_annotate "cancelled_annotations" (count_annotations true)
          (qs_annotate "total_annotations" (count_annotations false)
             {| rows := table; ordered := false |}))).
  induction Hpre as [|f pre Hf _ IH]; intros q; simpl.
  - now rewrite Hx.
  - destruct (annotations_map_get m f) as [fn|]; [|contradiction].
    now rewrite IH.
Qed.

Lemma filter_partition_length (A : Type) (p : A -> bool) (l : list A) :
  (List.length (List.filter p l) + List.length (List.filter (fun a => negb (p a)) l)
   = List.length l)%nat.
Proof.
  induction l as [|a l IH]; simpl; [reflexivity|].
  destruct (p a); simpl; lia.
Qed.

Lemma assoc_filter_other name c (l : list (string * Value)) :
  String.eqb c name = false ->
  assoc c (List.filter (fun kv => negb (String.eqb (fst kv) name)) l) = assoc c l.
Proof.
  intros Hc. induction l as [|[k v] l IH]; simpl; [reflexivity|].
  destruct (String.eqb k name) eqn:E; simpl.
  - apply String.eqb_eq in E. subst k. now rewrite Hc.
  - now rewrite IH.
Qed.

Lemma get_field_set_column name v c (t : Task) :
  String.eqb c name = false ->
  get_field (set_column name v t) c = get_field t c.
Proof.
  intros Hc. unfold get_field. cbn [id data columns set_column].
  destruct (String.eqb c "id"); [reflexivity|].
  destruct (PyStr.startswith c "data__"); [reflexivity|].
  destruct v as [x|]; simpl; [now rewrite Hc | now apply assoc_filter_other].
Qed.

(** Annotating a column that is not one of the three counters keeps them. *)
Lemma qs_annotate_keeps_counters name expr :
  PyStr.mem name counters = false -> keeps_counters (qs_annotate name expr).
Proof.
  intros Hn queryset H. unfold qs_annotate. cbn [rows].
  apply Forall_forall. intros t Ht. apply in_map_iff in Ht. destruct Ht as [t0 [<- Ht0]].
  rewrite Forall_forall in H. destruct (H t0 Ht0) as [Ha [Hb Hc]].
  assert (Hne : forall c, In c counters -> String.eqb c name = false).
  { intros c Hc'. destruct (String.eqb c name) eqn:E; [|reflexivity].
    apply String.eqb_eq in E. subst c. apply mem_In in Hc'. congruence. }
  unfold has_counters.
  rewrite !get_field_set_column by (apply Hne; simpl; tauto).
  exact (conj Ha (conj Hb Hc)).
Qed.

Lemma registered_keep_counters field function :
  annotations_map_get DATA_MANAGER_ANNOTATIONS_MAP field = Some function ->
  keeps_counters function.
Proof.
  unfold DATA_MANAGER_ANNOTATIONS_MAP, annotations_map_get.
  repeat match goal with
    | |- context [if String.eqb field ?k then _ else _] => destruct (String.eqb field k)
    end;
    intros H; inversion H; subst; clear H;
    unfold annotate_completed_at, annotate_annotations_results,
      annotate_predictions_results, annotate_predictions_score, annotate_annotators,
      file_upload, dummy;
    try (intros q Hq; exact Hq);
    try destruct DJANGO_DB_is_sqlite;
    now apply qs_annotate_keeps_counters.
Qed.

(** The query set [get_queryset] starts the annotators on. *)
Lemma get_queryset_counted table (m : AnnotationsMap) fields :
  exists base,
    get_queryset table m None = (inr base, []) /\
    get_queryset table m fields =
      evaluate_fields m (match fields with Some l => l | None => [] end) base /\
    map id (rows base) = map id table /\
    Forall has_counters (rows base).
Proof.
  eexists. split; [reflexivity|]. split; [reflexivity|]. split.
  - unfold qs_annotate. cbn [rows]. now rewrite !map_map.
  - apply Forall_forall. intros t Ht. unfold qs_annotate in Ht. cbn [rows] in Ht.
    rewrite !map_map in Ht. apply in_map_iff in Ht. destruct Ht as [t0 [<- _]].
    repeat split.
Qed.

Lemma evaluate_fields_keeps_counters (m : AnnotationsMap) fields queryset queryset' :
  (forall field function, annotations_map_get m field = Some function ->
                          keeps_counters function) ->
  Forall has_counters (rows queryset) ->
  fst (evaluate_fields m fields queryset) = inr queryset' ->
  Forall has_counters (rows queryset').
Proof.
  intros Hm. revert queryset. induction fields as [|x fields IH]; intros queryset H; simpl.
  - intros E. now inversion E; subst.
  - destruct (annotations_map_get m x) as [fn|] eqn:Ex; [|discriminate].
    specialize (IH (fn queryset) (Hm x fn Ex queryset H)).
    destruct (evaluate_fields m fields (fn queryset)) as [r called]. exact IH.
Qed.

(** The annotators of [fields], all registered, are applied one after the
    other. *)
Lemma evaluate_fields_all (m : AnnotationsMap) fields functions queryset :
  Forall2 (fun field function => annotations_map_get m field = Some function)
    fields functions ->
  evaluate_fields m fields queryset =
  (inr (fold_left (fun q function => function q) functions queryset), fields).
Proof.
  intros H. revert queryset. induction H as [|x fn fields fns Hx _ IH]; intros queryset.
  - reflexivity.
  - simpl. rewrite Hx, IH. reflexivity.
Qed.

(** X3: the three counters stay on the rows.  The annotators managers.py
    registers leave them as they are; and with a registry all of whose
    annotators do, on every row of the query set that [get_queryset] returns,
    for whatever fields, total_annotations and cancelled_annotations are
    integers that add up to the number of annotations of the task, and
    total_predictions is the number of its predictions. *)
Theorem X3_counters_partition_the_annotations :
  (forall field function,
      annotations_map_get DATA_MANAGER_ANNOTATIONS_MAP field = Some function ->
      keeps_counters function) /\
  (forall table (m : AnnotationsMap) fields queryset t,
      (forall field function, annotations_map_get m field = Some function ->
                              keeps_counters function) ->
      fst (get_queryset table m fields) = inr queryset ->
      In t (rows queryset) ->
      exists total cancelled,
        get_field t "total_annotations" = Some (VInt total) /\
        get_field t "cancelled_annotations" = Some (VInt cancelled) /\
        total + cancelled = Z.of_nat (List.length (annotations t)) /\
        get_field t "total_predictions"
        = Some (VInt (Z.of_nat (List.length (predictions t))))).
Proof.
  split; [exact registered_keep_counters|].
  intros table m fields queryset t Hm Hq Ht.
  destruct (get_queryset_counted table m fields) as [base [_ [E [_ Hb]]]].
  rewrite E in Hq.
  pose proof (evaluate_fields_keeps_counters m _ base queryset Hm Hb Hq) as H.
  rewrite Forall_forall in H. destruct (H t Ht) as [Ha [Hc Hp]].
  do 2 eexists. split; [exact Ha|]. split; [exact Hc|]. split; [|exact Hp].
  pose proof (filter_partition_length _ (fun a => Bool.eqb (was_cancelled a) false)
                (annotations t)) as Hl.
  rewrite (List.filter_ext (fun a => Bool.eqb (was_cancelled a) true)
             (fun a => negb (Bool.eqb (was_cancelled a) false))).
  - lia.
  - intros a. now destruct (was_cancelled a).
Qed.

(** X14: what [all] hands to the registry and what it does with it.  The
    names of [get_fields_for_annotation] are, without repetition, the first
    ordering key without "tasks:" and without any "-", if there is an
    ordering, and the field path of every filter item without
    "filter:tasks:", except the column names of the Task model, "id", and the
    names that start with "data.".  The annotators called are those of a
    front part of this list, in its order.  When every name is registered
    they are all called, and [all] is [prepared] on the query set obtained by
    applying them one after the other to the rows of the table with the three
    counters; without params [all] returns that table as it is. *)
Theorem X14_fields_handed_to_the_registry :
  forall table annotations_map (prepare_params : PrepareParams),
    let fields := get_fields_for_annotation prepare_params in
    let called := snd (manager_all table annotations_map prepare_params) in
    (forall x,
        In x fields <->
        ((exists o rest, ordering prepare_params = o :: rest /\
                         x = PyStr.replace (PyStr.replace o "tasks:" "") "-" "") \/
         (exists fs f, filters prepare_params = Some fs /\ In f (items fs) /\
                       x = PyStr.replace (filter f) "filter:tasks:" "")) /\
        ~ In x task_attnames /\ x <> "id" /\ PyStr.startswith x "data." = false) /\
    NoDup fields /\
    (exists rest, fields = called ++ rest)%list /\
    (exists base,
        get_queryset table annotations_map None = (inr base, []) /\
        PreparedTaskManager_all table annotations_map None = Returned base /\
        map id (rows base) = map id table /\
        Forall has_counters (rows base) /\
        forall functions,
          Forall2 (fun field function =>
                     annotations_map_get annotations_map field = Some function)
            fields functions ->
          manager_all table annotations_map prepare_params =
          (prepared (fold_left (fun q function => function q) functions base)
             prepare_params, fields)).
Proof.
  intros table m pp fields called. split; [|split; [|split]].
  - intros x. apply get_fields_for_annotation_In.
  - unfold fields, get_fields_for_annotation, py_set.
    apply NoDup_filter, NoDup_filter, NoDup_nodup.
  - unfold called. rewrite manager_all_called. unfold get_queryset.
    apply evaluate_fields_called.
  - destruct (get_queryset_counted table m (Some fields)) as [base [H0 [E [Hi Hc]]]].
    exists base. split; [exact H0|].
    split; [unfold PreparedTaskManager_all; now rewrite H0|].
    split; [exact Hi|]. split; [exact Hc|].
    intros functions HF. unfold manager_all. fold fields. rewrite E.
    now rewrite (evaluate_fields_all m fields functions base HF).
Qed.

End More.

Lemma X2_witness :
  Forall (fun f => annotations_map_get DATA_MANAGER_ANNOTATIONS_MAP f <> None)
    ["completed_at"; "total_annotations"] /\
  annotations_map_get DATA_MANAGER_ANNOTATIONS_MAP "reviewed" = None /\
  get_queryset demo_table DATA_MANAGER_ANNOTATIONS_MAP
    (Some (["completed_at"; "total_annotations"] ++ "reviewed" :: ["annotators"])%list)
  = (inl (KeyError "reviewed"), ["completed_at"; "total_annotations"]).
Proof.
  assert (H : Forall (fun f => annotations_map_get DATA_MANAGER_ANNOTATIONS_MAP f <> None)
                ["completed_at"; "total_annotations"])
    by (repeat constructor; discriminate).
  split; [exact H|]. split; [reflexivity|].
  exact (X2_get_queryset_unregistered_field demo_table DATA_MANAGER_ANNOTATIONS_MAP
           ["completed_at"; "total_annotations"] "reviewed" ["annotators"] H eq_refl).
Defined.

Lemma X3_witness :
  exists queryset t total cancelled,
    fst (get_queryset demo_table DATA_MANAGER_ANNOTATIONS_MAP
           (Some ["completed_at"; "annotators"])) = inr queryset /\
    In t (rows queryset) /\ id t = 3 /\
    get_field t "total_annotations" = Some (VInt total) /\
    get_field t "cancelled_annotations" = Some (VInt cancelled) /\
    total + cancelled = Z.of_nat (List.length (annotations t)).
Proof.
  assert (Hq : exists queryset,
             fst (get_queryset demo_table DATA_MANAGER_ANNOTATIONS_MAP
                    (Some ["completed_at"; "annotators"])) = inr queryset /\
             exists t, In t (rows queryset) /\ id t = 3).
  { eexists. split; [reflexivity|]. eexists. split; [right; right; left; reflexivity|].
    reflexivity. }
  destruct Hq as [queryset [Hq [t [Ht Hi]]]].
  destruct (proj2 X3_counters_partition_the_annotations demo_table
              DATA_MANAGER_ANNOTATIONS_MAP _ queryset t
              (proj1 X3_counters_partition_the_annotations) Hq Ht)
    as [a [b [Ha [Hb [Hab _]]]]].
  exists queryset, t, a, b. repeat split; assumption.
Defined.

Lemma X14_witness :
  let prepare_params :=
    {| pp_project := None;
       ordering := ["tasks:-completed_at"];
       filters :=
         Some {| conjunction := ConjunctionEnum_AND;
                 items := [demo_item "filter:tasks:data.text" "contains" "String" (VStr "cat");
                           demo_item "filter:tasks:total_annotations" "equal" "Number" (VInt 1);
                           demo_item "filter:tasks:completed_at" "empty" "Datetime"
                             (VStr "true");
                           demo_item "filter:tasks:id" "equal" "Number" (VInt 1)] |};
       selectedItems := None |} in
  get_fields_for_annotation prepare_params = ["total_annotations"; "completed_at"] /\
  Forall2 (fun field function =>
             annotations_map_get DATA_MANAGER_ANNOTATIONS_MAP field = Some function)
    (get_fields_for_annotation prepare_params) [dummy; annotate_completed_at] /\
  exists base,
    get_queryset demo_table DATA_MANAGER_ANNOTATIONS_MAP None = (inr base, []) /\
    manager_all demo_table DATA_MANAGER_ANNOTATIONS_MAP prepare_params =
    (prepared (annotate_completed_at (dummy base)) prepare_params,
     ["total_annotations"; "completed_at"]).
Proof.
  intros prepare_params.
  assert (Hf : get_fields_for_annotation prepare_params
               = ["total_annotations"; "completed_at"]) by (vm_compute; reflexivity).
  assert (H2 : Forall2 (fun field function =>
             annotations_map_get DATA_MANAGER_ANNOTATIONS_MAP field = Some function)
    (get_fields_for_annotation prepare_params) [dummy; annotate_completed_at]).
  { rewrite Hf. repeat constructor. }
  split; [exact Hf|]. split; [exact H2|].
  destruct (proj2 (proj2 (proj2
              (X14_fields_handed_to_the_registry demo_table DATA_MANAGER_ANNOTATIONS_MAP
                 prepare_params)))) as [base [H0 [_ [_ [_ Hall]]]]].
  exists base. split; [exact H0|].
  rewrite (Hall [dummy; annotate_completed_at] H2). rewrite Hf. reflexivity.
Defined.

Section Coercion.
Context `{T : PyTypes} `{L : @PyLib T} `{B : @Backend T}.

Lemma cast_bool_from_str_twice (v : Value) :
  cast_bool_from_str (cast_bool_from_str v) = cast_bool_from_str v.
Proof. now destruct v. Qed.

(** X4: [cast_value] on an item that a first call has coerced.  For every
    type other than "Datetime" the second call succeeds and changes nothing;
    for a "Datetime" item that is not a range the second call raises
    TypeError, the value being a datetime and no longer a string. *)
Theorem X4_cast_value_on_a_coerced_item :
  forall (f f' : FilterItem),
    cast_value f = (None, f') ->
    (type f <> "Datetime" -> cast_value f' = (None, f')) /\
    (type f = "Datetime" -> (forall lo hi, value f <> VRange lo hi) ->
     cast_value f' = (Some TypeError, f')).
Proof.
  intros f f' H. unfold cast_value in H. split.
  - intros Hd. apply String.eqb_neq in Hd. rewrite Hd in H.
    destruct (value f) eqn:Hv;
      destruct (String.eqb (type f) "Number") eqn:Hn;
      try (destruct (String.eqb (type f) "Boolean") eqn:Hb);
      simpl in H;
      repeat match type of H with
        | context [match py_float ?v with _ => _ end] =>
            let E := fresh "E" in
            destruct (py_float v) eqn:E; [discriminate|];
            apply py_float_is_float in E; destruct E as [? ->]
        | context [match float_of_str ?s with _ => _ end] =>
            destruct (float_of_str s); [|discriminate]
        end;
      inversion H; subst; clear H;
      unfold cast_value; simpl; rewrite ?Hn, ?Hd, ?Hb, ?Hv; simpl;
      rewrite ?Hn, ?Hd, ?Hb; try reflexivity.
  - intros Hd Hr. rewrite Hd in H. simpl in H.
    destruct (value f) eqn:Hv; simpl in H; try discriminate;
      try (destruct (strptime s DATETIME_FORMAT); [|discriminate]);
      try (exfalso; eapply Hr; reflexivity).
    inversion H; subst; clear H. unfold cast_value. simpl. now rewrite Hd.
Qed.

(** X5: failure of [cast_value].  On a value that is not a range the item is
    left as it was.  On a range of type "Number" whose [min] parses and whose
    [max] does not, ValueError is raised after [min] has been replaced by its
    float: the item is left with a coerced [min] and the [max] it had. *)
Theorem X5_cast_value_failure_leaves :
  forall (f f' : FilterItem) e,
    cast_value f = (Some e, f') ->
    ((forall lo hi, value f <> VRange lo hi) -> f' = f) /\
    (forall lo hi x,
        type f = "Number" -> value f = VRange (VStr lo) (VStr hi) ->
        float_of_str lo = Some x -> float_of_str hi = None ->
        e = ValueError /\ f' = set_value f (VRange (VFloat x) (VStr hi))).
Proof.
  intros f f' e H. split.
  - intros Hr. unfold cast_value in H.
    destruct (value f) eqn:Hv; try (exfalso; eapply Hr; reflexivity);
      repeat match type of H with
        | context [if ?b then _ else _] => destruct b
        | context [match ?x with _ => _ end] => destruct x
        end; inversion H; reflexivity.
  - intros lo hi x Ht Hv Hlo Hhi. unfold cast_value in H.
    rewrite Hv, Ht in H. simpl in H. rewrite Hlo, Hhi in H.
    inversion H. split; reflexivity.
Qed.

End Coercion.

Lemma X4_witness :
  let f := demo_item "filter:tasks:created_at" "greater" "Datetime"
             (VStr "2021-01-01T00:00:00.000000Z") in
  let f' := set_value f (VDatetime 1609459200000000) in
  cast_value f = (None, f') /\ cast_value f' = (Some TypeError, f').
Proof.
  intros f f'.
  assert (H : cast_value f = (None, f')) by reflexivity.
  split; [exact H|].
  apply (proj2 (X4_cast_value_on_a_coerced_item f f' H)); [reflexivity|].
  intros lo hi. discriminate.
Defined.

Lemma X5_witness :
  let f := demo_item "filter:tasks:total_annotations" "in" "Number"
             (VRange (VStr "1") (VStr "many")) in
  cast_value f = (Some ValueError, set_value f (VRange (VFloat 1) (VStr "many"))) /\
  ValueError = ValueError /\
  set_value f (VRange (VFloat 1) (VStr "many")) =
  set_value f (VRange (VFloat 1) (VStr "many")).
Proof.
  intros f.
  assert (H : cast_value f
              = (Some ValueError, set_value f (VRange (VFloat 1) (VStr "many"))))
    by reflexivity.
  split; [exact H|].
  eapply (proj2 (X5_cast_value_failure_leaves f _ ValueError H) "1" "many");
    reflexivity.
Defined.

(** ** What a build does to the rows *)

Section Rows.
Context `{T : PyTypes} `{L : @PyLib T} `{B : @Backend T}.

(** A property of lists of rows that filtering, annotating and reordering
    keep. *)
Variable I : list Task -> Prop.
Hypothesis I_filter : forall p l, I l -> I (List.filter p l).
Hypothesis I_annotate :
  forall name (expr : Task -> option Value) l,
    I l -> I (map (fun t => set_column name (expr t) t) l).
Hypothesis I_perm : forall l l', Permutation l l' -> I l -> I l'.

Lemma I_nil l : I l -> I [].
Proof.
  intros H.
  assert (E : List.filter (fun _ : Task => false) l = [])
    by (clear H; induction l; simpl; auto).
  rewrite <- E. now apply I_filter.
Qed.

Lemma resolve_field_keeps ouf queryset (f : FilterItem) :
  I (rows queryset) -> I (rows (snd (fst (resolve_field ouf queryset f)))).
Proof.
  intros H. unfold resolve_field.
  destruct (String.eqb (type f) "Number" && _)%bool; simpl; [|exact H].
  now apply I_annotate.
Qed.

Lemma generic_predicate_control conj queryset expr clean (g : FilterItem) :
  match control (generic_predicate conj queryset expr clean g) with
  | Next q _ => q = queryset
  | Returns _ => False
  | Raises _ => True
  end.
Proof.
  unfold generic_predicate, range_predicate, scalar_predicate.
  destruct (cast_value g) as [[e|] casted];
    repeat match goal with
      | |- context [if ?b then _ else _] => destruct b
      | |- context [match min_max ?v with _ => _ end] => destruct (min_max v) as [[? ?]|]
      end; simpl; auto.
Qed.

Lemma filter_item_keeps ouf conj queryset expr (f : FilterItem) :
  I (rows queryset) ->
  match control (filter_item ouf conj queryset expr f) with
  | Next q _ | Returns q => I (rows q)
  | Raises _ => True
  end.
Proof.
  intros H. unfold filter_item.
  destruct (skipped f); [exact H|].
  pose proof (resolve_field_keeps ouf queryset f H) as Hq.
  destruct (resolve_field ouf queryset f) as [[fn q'] clean]. simpl in Hq.
  destruct (PyStr.mem _ _ && String.eqb _ _)%bool; [exact Hq|].
  destruct (if String.eqb _ _ then _ else _); [simpl; now apply (I_nil (rows q'))|].
  pose proof (generic_predicate_control conj q' expr clean
                (counter_special_case clean f)) as Hc.
  destruct (control (generic_predicate conj q' expr clean (counter_special_case clean f)));
    [now subst | contradiction | exact Logic.I].
Qed.

Lemma filter_loop_keeps ouf conj queryset expr (l : list FilterItem) :
  I (rows queryset) ->
  match fst (fst (filter_loop ouf conj queryset expr l)) with
  | Next q _ | Returns q => I (rows q)
  | Raises _ => True
  end.
Proof.
  revert queryset expr. induction l as [|f l IH]; intros queryset expr H; simpl.
  - exact H.
  - pose proof (filter_item_keeps ouf conj queryset expr f H) as Hf.
    destruct (control (filter_item ouf conj queryset expr f)) as [q' e'| |]; simpl; auto.
    specialize (IH q' e' Hf).
    now destruct (filter_loop ouf conj q' e' l) as [[c r] ev].
Qed.

Lemma apply_filters_keeps queryset (filters : option Filters) q :
  I (rows queryset) ->
  outcome (apply_filters queryset filters) = Returned q -> I (rows q).
Proof.
  intros H. destruct filters as [fs|]; [|simpl; intros E; now inversion E; subst].
  rewrite apply_filters_outcome.
  pose proof (filter_loop_keeps (sample_only_undefined_field queryset)
                (connector_of (conjunction fs)) queryset (Q_args []) (items fs) H) as Hl.
  destruct (fst (fst (filter_loop _ _ queryset (Q_args []) (items fs)))) as [q' e'|q'|e];
    intros E; inversion E; subst; clear E; auto.
  unfold qs_filter. cbn [rows]. now apply I_filter.
Qed.

Lemma apply_ordering_keeps queryset (ordering : list string) q :
  I (rows queryset) -> apply_ordering queryset ordering = inr q -> I (rows q).
Proof.
  intros H. unfold apply_ordering. destruct ordering as [|o rest].
  - intros E. inversion E; subst. unfold qs_order_by. cbn [rows].
    eapply I_perm; [symmetry; apply sort_by_perm | exact H].
  - destruct (PyStr.replace o "tasks:" "") as [|c r]; [discriminate|].
    destruct (PyStr.contains _ "data."); intros E; inversion E; subst;
      unfold qs_order_by, qs_annotate; cbn [rows];
      (eapply I_perm; [symmetry; apply sort_by_perm|]); auto.
Qed.

Lemma select_items_keeps queryset sel :
  I (rows queryset) -> I (rows (select_items queryset sel)).
Proof.
  intros H. unfold select_items. destruct sel as [s|]; [|exact H].
  destruct (negb (all s) && _)%bool; [now apply I_filter|].
  destruct (all s && _)%bool; [now apply I_filter | exact H].
Qed.

Lemma prepared_keeps self (prepare_params : PrepareParams) q :
  I (rows (match pp_project prepare_params with
           | Some p => qs_filter_project p self
           | None => self
           end)) ->
  prepared_outcome (prepared self prepare_params) = Returned q -> I (rows q).
Proof.
  intros H. unfold prepared.
  destruct (outcome (apply_filters _ (filters prepare_params))) as [q1|e] eqn:E1;
    [|discriminate].
  pose proof (apply_filters_keeps _ _ _ H E1) as H1.
  destruct (apply_ordering q1 (ordering prepare_params)) as [e|q2] eqn:E2; [discriminate|].
  pose proof (apply_ordering_keeps _ _ _ H1 E2) as H2.
  simpl. intros E. inversion E; subst. now apply select_items_keeps.
Qed.

End Rows.

Section RowsOfPrepared.
Context `{T : PyTypes} `{L : @PyLib T} `{B : @Backend T}.

Lemma map_id_filter_incl p (l : list Task) : incl (map id (List.filter p l)) (map id l).
Proof.
  intros i Hi. apply in_map_iff in Hi. destruct Hi as [t [<- Ht]].
  apply filter_In in Ht. apply in_map. tauto.
Qed.

Lemma NoDup_map_id_filter p (l : list Task) :
  NoDup (map id l) -> NoDup (map id (List.filter p l)).
Proof.
  induction l as [|t l IH]; simpl; intros H; [constructor|].
  inversion H as [|? ? Hn Hd]; subst.
  destruct (p t); simpl; [|now apply IH].
  constructor; [|now apply IH].
  intros Hin. apply Hn. now apply (map_id_filter_incl p l).
Qed.

Lemma map_id_annotate name (expr : Task -> option Value) (l : list Task) :
  map id (map (fun t => set_column name (expr t) t) l) = map id l.
Proof. rewrite map_map. reflexivity. Qed.

(** X6: [prepared] adds no row and repeats none.  The ids of the rows it
    returns are ids of the query set it is called on; when the ids of that
    query set are all different, so are the ids returned; and there are no
    more rows than before. *)
Theorem X6_prepared_returns_rows_of_self :
  forall self (prepare_params : PrepareParams) q,
    prepared_outcome (prepared self prepare_params) = Returned q ->
    incl (map id (rows q)) (map id (rows self)) /\
    (NoDup (map id (rows self)) -> NoDup (map id (rows q))) /\
    (List.length (rows q) <= List.length (rows self))%nat.
Proof.
  intros self pp q Hq. split; [|split].
  - apply (fun a b c d =>
             prepared_keeps (fun l => incl (map id l) (map id (rows self)))
               a b c self pp q d Hq).
    + intros p l H. eapply incl_tran; [apply map_id_filter_incl | exact H].
    + intros name expr l H. now rewrite map_id_annotate.
    + intros l l' Hp H i Hi. apply H.
      eapply Permutation_in; [apply Permutation_map; symmetry; exact Hp | exact Hi].
    + destruct (pp_project pp); [apply map_id_filter_incl | apply incl_refl].
  - intros Hnd.
    apply (fun a b c d =>
             prepared_keeps (fun l => NoDup (map id l)) a b c self pp q d Hq).
    + intros p l H. now apply NoDup_map_id_filter.
    + intros name expr l H. now rewrite map_id_annotate.
    + intros l l' Hp H. eapply Permutation_NoDup; [apply Permutation_map; exact Hp | exact H].
    + destruct (pp_project pp); [now apply NoDup_map_id_filter | exact Hnd].
  - apply (fun a b c d =>
             prepared_keeps (fun l => (List.length l <= List.length (rows self))%nat)
               a b c self pp q d Hq).
    + intros p l H. pose proof (filter_length_le p l). lia.
    + intros name expr l H. now rewrite length_map.
    + intros l l' Hp H. now rewrite <- (Permutation_length Hp).
    + destruct (pp_project pp); [apply filter_length_le | lia].
Qed.

(** X7: with a project in [prepare_params], every row [prepared] returns
    belongs to that project, whatever the filters, the ordering and the
    selection are. *)
Theorem X7_prepared_stays_in_the_project :
  forall self (prepare_params : PrepareParams) p q,
    pp_project prepare_params = Some p ->
    prepared_outcome (prepared self prepare_params) = Returned q ->
    Forall (fun t => project_id (project t) = p) (rows q).
Proof.
  intros self pp p q Hp Hq.
  apply (fun a b c d =>
           prepared_keeps (Forall (fun t => project_id (project t) = p))
             a b c self pp q d Hq).
  - intros f l H. apply Forall_forall. intros t Ht. apply filter_In in Ht.
    rewrite Forall_forall in H. now apply H.
  - intros name expr l H. apply Forall_forall. intros t Ht.
    apply in_map_iff in Ht. destruct Ht as [t0 [<- Ht0]].
    rewrite Forall_forall in H. exact (H t0 Ht0).
  - intros l l' Hperm H. eapply Permutation_Forall; eassumption.
  - rewrite Hp. unfold qs_filter_project. cbn [rows]. apply Forall_forall.
    intros t Ht. apply filter_In in Ht. now apply Z.eqb_eq.
Qed.

End RowsOfPrepared.

Lemma X6_witness :
  exists q,
    prepared_outcome (prepared demo_queryset demo_sorted_params) = Returned q /\
    map id (rows q) = [2; 1] /\
    incl (map id (rows q)) (map id (rows demo_queryset)).
Proof.
  eexists. split; [reflexivity|]. split; [reflexivity|].
  exact (proj1 (X6_prepared_returns_rows_of_self demo_queryset demo_sorted_params _ eq_refl)).
Defined.

Lemma X7_witness :
  exists q,
    pp_project demo_sorted_params = Some 1 /\
    prepared_outcome (prepared demo_queryset demo_sorted_params) = Returned q /\
    Forall (fun t => project_id (project t) = 1) (rows q).
Proof.
  eexists. split; [reflexivity|]. split; [reflexivity|].
  exact (X7_prepared_stays_in_the_project demo_queryset demo_sorted_params 1 _
           eq_refl eq_refl).
Defined.

(** ** Operators *)

Section Operators.
Context `{T : PyTypes} `{L : @PyLib T} `{B : @Backend T}.

Lemma cast_value_set_operator (f : FilterItem) op :
  cast_value (set_operator f op) =
  (fst (cast_value f), set_operator (snd (cast_value f)) op).
Proof.
  unfold cast_value. cbn [set_operator value type].
  destruct (value f);
    repeat match goal with
      | |- context [if ?b then _ else _] => destruct b
      | |- context [match py_float ?v with _ => _ end] => destruct (py_float v)
      | |- context [match py_strptime ?v ?x with _ => _ end] => destruct (py_strptime v x)
      end; reflexivity.
Qed.

Lemma cast_value_keeps_scalar (f : FilterItem) :
  (forall lo hi, value f <> VRange lo hi) ->
  forall lo hi, value (snd (cast_value f)) <> VRange lo hi.
Proof.
  intros Hr lo hi. unfold cast_value.
  destruct (value f) eqn:Hv; try (exfalso; eapply Hr; reflexivity);
    unfold py_float, py_strptime;
    repeat match goal with
      | |- context [if ?b then _ else _] => destruct b
      | |- context [match float_of_str ?s with _ => _ end] => destruct (float_of_str s)
      | |- context [match strptime ?s ?x with _ => _ end] => destruct (strptime s x)
      end; simpl; rewrite ?Hv; simpl; discriminate.
Qed.

Lemma append_empty (a : string) : a ++ "" = a.
Proof. induction a as [|c a IH]; simpl; [reflexivity | now rewrite IH]. Qed.

(** X12: the operators "in" and "not_in" read [min] and [max] of the value.
    For a filter item that is not passed over and whose value is not a range,
    the turn of the loop raises the exception of [cast_value] if the value
    cannot be coerced.  If the coerced value is a datetime, nothing is raised:
    the predicate compares the field with [datetime.min] and [datetime.max],
    the bounds every datetime carries, and what the value was plays no part.
    In every other case the turn raises AttributeError. *)
Theorem X12_range_operators_need_a_range :
  forall ouf conj queryset expr (f : FilterItem),
    PyStr.startswith (filter f) "filter:tasks:" = true ->
    truthy (value f) = true ->
    operator f = "in" \/ operator f = "not_in" ->
    (forall lo hi, value f <> VRange lo hi) ->
    control (filter_item ouf conj queryset expr f) =
    match fst (cast_value f), value (snd (cast_value f)) with
    | Some e, _ => Raises e
    | None, VDatetime _ =>
        let field_name := snd (resolve_field ouf queryset f) in
        let q := Q_kw [(field_name ++ "__gte", VDatetime datetime_min);
                       (field_name ++ "__lte", VDatetime datetime_max)] in
        Next (snd (fst (resolve_field ouf queryset f)))
          (Q_add expr (if String.eqb (operator f) "not_in" then Q_invert q else q) conj)
    | None, _ => Raises AttributeError
    end.
Proof.
  intros ouf conj queryset expr f Hp Hv Hop Hr.
  rewrite filter_item_generic; try assumption.
  - pose proof (cast_value_keeps_scalar f Hr) as Hs.
    unfold generic_predicate, range_predicate.
    destruct (cast_value f) as [[e|] casted]; simpl in *;
      destruct Hop as [-> | ->]; simpl; try reflexivity;
      destruct (value casted) eqn:Hc; simpl; rewrite ?append_empty; try reflexivity;
      exfalso; eapply Hs; reflexivity.
  - destruct Hop as [-> | ->]; discriminate.
  - destruct Hop as [-> | ->]; discriminate.
Qed.

Lemma filter_item_plain_operator ouf conj queryset expr (f : FilterItem) :
  PyStr.startswith (filter f) "filter:tasks:" = true ->
  truthy (value f) = true ->
  String.eqb (operator f) "empty" = false ->
  String.eqb (operator f) "regex" = false ->
  String.eqb (operator f) "in" = false ->
  String.eqb (operator f) "not_in" = false ->
  filter_item ouf conj queryset expr f =
  scalar_predicate (PyStr.startswith (operator f) "not_") conj
    (snd (fst (resolve_field ouf queryset f))) expr
    (snd (resolve_field ouf queryset f) ++ dict_get operators (operator f) "") f.
Proof.
  intros Hp Hv He Hx Hi Hn.
  rewrite filter_item_generic; try assumption.
  - unfold generic_predicate. rewrite He, Hi, Hn.
    now destruct (PyStr.startswith (operator f) "not_").
  - now apply String.eqb_neq.
  - intros E. rewrite E in Hx. discriminate.
Qed.

Lemma scalar_predicate_control negate conj queryset expr name (f : FilterItem) op :
  control (scalar_predicate negate conj queryset expr name (set_operator f op)) =
  control (scalar_predicate negate conj queryset expr name f).
Proof.
  unfold scalar_predicate. rewrite cast_value_set_operator.
  now destruct (cast_value f) as [[e|] casted].
Qed.

(** X8: an operator that is not in the table [operators] is not refused.
    A filter item with such an operator adds the same predicate, or raises
    the same exception, as the item with the operator "equal", or "not_equal"
    when the name of the operator starts with "not_". *)
Theorem X8_unknown_operator_acts_as_equal :
  forall ouf conj queryset expr (f : FilterItem),
    PyStr.mem (operator f) (map fst operators) = false ->
    control (filter_item ouf conj queryset expr f) =
    control (filter_item ouf conj queryset expr
               (set_operator f (if PyStr.startswith (operator f) "not_"
                                then "not_equal" else "equal"))).
Proof.
  intros ouf conj queryset expr f Hm.
  assert (Hk : forall k, In k (map fst operators) -> String.eqb (operator f) k = false).
  { intros k Hk. destruct (String.eqb (operator f) k) eqn:E; [|reflexivity].
    apply String.eqb_eq in E. rewrite <- Hm. symmetry. apply mem_In. now rewrite E. }
  assert (Hd : dict_get operators (operator f) "" = "").
  { unfold operators, dict_get.
    repeat (rewrite Hk by (simpl; tauto)). reflexivity. }
  destruct (skipped f) eqn:Hs.
  { rewrite (filter_item_skipped ouf conj queryset expr f Hs).
    now rewrite (filter_item_skipped ouf conj queryset expr (set_operator f _) Hs). }
  unfold skipped in Hs. apply orb_false_iff in Hs. destruct Hs as [Hp Hv].
  apply negb_false_iff in Hp, Hv.
  rewrite (filter_item_plain_operator ouf conj queryset expr f Hp Hv);
    try (apply Hk; simpl; tauto).
  rewrite Hd.
  destruct (PyStr.startswith (operator f) "not_") eqn:Hn.
  - rewrite (filter_item_plain_operator ouf conj queryset expr
               (set_operator f "not_equal") Hp Hv); try reflexivity.
    symmetry.
    exact (scalar_predicate_control true conj
             (snd (fst (resolve_field ouf queryset f))) expr
             (snd (resolve_field ouf queryset f) ++ "") f "not_equal").
  - rewrite (filter_item_plain_operator ouf conj queryset expr
               (set_operator f "equal") Hp Hv); try reflexivity.
    symmetry.
    exact (scalar_predicate_control false conj
             (snd (fst (resolve_field ouf queryset f))) expr
             (snd (resolve_field ouf queryset f) ++ "") f "equal").
Qed.

End Operators.

Lemma X8_witness :
  let f := demo_item "filter:tasks:total_annotations" "approximately" "Unknown" (VInt 1) in
  PyStr.mem (operator f) (map fst operators) = false /\
  control (filter_item false Q_AND demo_queryset (Q_args []) f) =
  control (filter_item false Q_AND demo_queryset (Q_args []) (set_operator f "equal")).
Proof.
  intros f. split; [reflexivity|].
  exact (X8_unknown_operator_acts_as_equal false Q_AND demo_queryset (Q_args []) f eq_refl).
Defined.

Lemma X12_witness :
  let f := demo_item "filter:tasks:total_annotations" "in" "Number" (VStr "5") in
  let g := demo_item "filter:tasks:created_at" "not_in" "Datetime"
             (VStr "2021-01-01T00:00:00.000000Z") in
  cast_value f = (None, set_value f (VFloat 5)) /\
  control (filter_item false Q_AND demo_queryset (Q_args []) f) = Raises AttributeError /\
  control (filter_item false Q_AND demo_queryset (Q_args []) g) =
  Next demo_queryset
    (Q_args [Q_invert (Q_kw [("created_at__gte", VDatetime datetime_min);
                             ("created_at__lte", VDatetime datetime_max)])]).
Proof.
  intros f g. split; [reflexivity|].
  assert (Hf : forall lo hi, value f <> VRange lo hi) by (intros lo hi; discriminate).
  assert (Hg : forall lo hi, value g <> VRange lo hi) by (intros lo hi; discriminate).
  split.
  - exact (X12_range_operators_need_a_range false Q_AND demo_queryset (Q_args []) f
             eq_refl eq_refl (or_introl eq_refl) Hf).
  - exact (X12_range_operators_need_a_range false Q_AND demo_queryset (Q_args []) g
             eq_refl eq_refl (or_intror eq_refl) Hg).
Defined.

(** ** The order of the rows *)

Section Ordered.
Context `{T : PyTypes} `{L : @PyLib T} `{B : @Backend T}.

(** X11: when the storage engine compares any two values one way or the
    other, the rows [apply_ordering] returns for a first key that names a
    field are in order: of two neighbours, the first has the smaller sort key
    when the key has no "-" in front and the larger one when it has, a null
    key counting as the last in both cases. *)
Theorem X11_apply_ordering_sorts_by_the_key :
  forall queryset o rest c r q,
    (forall a b, db_leb a b = false -> db_leb b a = true) ->
    PyStr.replace o "tasks:" "" = String c r ->
    apply_ordering queryset (o :: rest) = inr q ->
    let field_name := if Ascii.eqb c "-" then r else String c r in
    let name := if PyStr.contains field_name "data." then "ordering_field" else field_name in
    Sorted (fun a b =>
              nulls_last_leb (negb (Ascii.eqb c "-")) (order_key name a) (order_key name b)
              = true) (rows q).
Proof.
  intros queryset o rest c r q Htot Ho Hq field_name name.
  unfold apply_ordering in Hq. rewrite Ho in Hq. fold field_name in Hq.
  unfold name.
  destruct (PyStr.contains field_name "data."); inversion Hq; subst; clear Hq;
    unfold qs_order_by; cbn [rows];
    apply (sort_by_sorted
             (fun a b => nulls_last_leb (negb (Ascii.eqb c "-"))
                           (order_key _ a) (order_key _ b)));
    intros a b; now apply nulls_last_leb_total.
Qed.

End Ordered.

Lemma X11_witness :
  (forall a b : Value, db_leb a b = false -> db_leb b a = true) /\
  exists q,
    apply_ordering demo_queryset ["tasks:-data.text"] = inr q /\
    Sorted (fun a b =>
              nulls_last_leb false (order_key "ordering_field" a)
                (order_key "ordering_field" b) = true) (rows q).
Proof.
  assert (Htot : forall a b : Value, db_leb a b = false -> db_leb b a = true).
  { intros a b. destruct a, b; simpl; try discriminate.
    intros H. destruct (String.leb_total s s0) as [E|E]; [congruence | exact E]. }
  split; [exact Htot|].
  eexists. split; [reflexivity|].
  exact (X11_apply_ordering_sorts_by_the_key demo_queryset "tasks:-data.text" []
           "-"%char "data.text" _ Htot eq_refl eq_refl).
Defined.

(** ** The exceptions of a build *)

Section Errors.
Context `{T : PyTypes} `{L : @PyLib T} `{B : @Backend T}.

Lemma apply_ordering_raises queryset (ordering : list string) e :
  apply_ordering queryset ordering = inl e <->
  e = IndexError /\
  exists o rest, ordering = o :: rest /\ PyStr.replace o "tasks:" "" = "".
Proof.
  unfold apply_ordering. destruct ordering as [|o rest].
  - split; [discriminate | intros [_ [o [rest [H _]]]]; discriminate].
  - destruct (PyStr.replace o "tasks:" "") as [|c r] eqn:Ho.
    + split.
      * intros H. inversion H. split; [reflexivity|]. now exists o, rest.
      * intros [-> _]. reflexivity.
    + split.
      * destruct (PyStr.contains _ "data."); discriminate.
      * intros [_ [o' [rest' [H1 H2]]]]. inversion H1; subst. congruence.
Qed.

(** X10: the exceptions of [prepared], in the order they arise.  Called
    without params it raises AttributeError where it reads the project.  With
    params, an exception of [apply_filters] is the exception of [prepared],
    whatever the ordering is; when the filters raise nothing, [prepared]
    raises exactly when the first ordering key is empty once "tasks:" is
    removed, and then IndexError; the selection never raises. *)
Theorem X10_prepared_raises_for_filters_then_ordering :
  (forall self, TaskQuerySet_prepared self None = Raised AttributeError) /\
  (forall self (prepare_params : PrepareParams),
    let scoped := match pp_project prepare_params with
                  | Some p => qs_filter_project p self
                  | None => self
                  end in
    (forall e,
        outcome (apply_filters scoped (filters prepare_params)) = Raised e ->
        TaskQuerySet_prepared self (Some prepare_params) = Raised e) /\
    (forall q,
        outcome (apply_filters scoped (filters prepare_params)) = Returned q ->
        (forall e, TaskQuerySet_prepared self (Some prepare_params) = Raised e ->
                   e = IndexError) /\
        ((exists e, TaskQuerySet_prepared self (Some prepare_params) = Raised e) <->
         (exists o rest, ordering prepare_params = o :: rest /\
                         PyStr.replace o "tasks:" "" = "")))).
Proof.
  split; [reflexivity|].
  intros self pp scoped. unfold TaskQuerySet_prepared. split.
  - intros e He. unfold prepared. fold scoped. now rewrite He.
  - intros q Hq. unfold prepared. fold scoped. rewrite Hq.
    destruct (apply_ordering q (ordering pp)) as [e0|q'] eqn:E; simpl.
    + apply apply_ordering_raises in E. destruct E as [-> Hex]. split.
      * intros e He. now inversion He.
      * split; [intros _; exact Hex | intros _; now exists IndexError].
    + split; [discriminate|]. split.
      * intros [e He]. discriminate.
      * intros Hex.
        assert (H : apply_ordering q (ordering pp) = inl IndexError)
          by (apply apply_ordering_raises; now split).
        congruence.
Qed.

End Errors.

Lemma X10_witness :
  let prepare_params :=
    {| pp_project := None; ordering := ["tasks:"];
       filters :=
         Some {| conjunction := ConjunctionEnum_AND;
                 items := [demo_item "filter:tasks:total_annotations" "equal" "Number"
                             (VStr "abc")] |};
       selectedItems := None |} in
  outcome (apply_filters demo_queryset (filters prepare_params)) = Raised ValueError /\
  TaskQuerySet_prepared demo_queryset (Some prepare_params) = Raised ValueError /\
  TaskQuerySet_prepared demo_queryset None = Raised AttributeError.
Proof.
  intros prepare_params. split; [reflexivity|]. split.
  - exact (proj1 (proj2 X10_prepared_raises_for_filters_then_ordering demo_queryset
                    prepare_params) ValueError eq_refl).
  - exact (proj1 X10_prepared_raises_for_filters_then_ordering demo_queryset).
Defined.

(** ** An operator and its negation *)

Section Negation.
Context `{T : PyTypes} `{L : @PyLib T} `{B : @Backend T}.

#[local] Arguments lookup_holds : simpl never.
#[local] Arguments build_filter : simpl never.
#[local] Arguments lookup_sql : simpl never.
























End Negation.


(** ** One more filter under AND *)

Section Conjunction.
Context `{T : PyTypes} `{L : @PyLib T} `{B : @Backend T}.















End Conjunction.

